(** * I2C slave register file (i2c_slave.c): a shallow embedding

    The file under study is the responder side of an interrupt-driven I2C
    register protocol.  Its seven file-scope variables become one record,
    each HAL callback becomes a state transformer on that record, and the
    calls it makes into the STM32 HAL are recorded, in order, inside the
    state.  The bus peripheral itself is a small environment model
    ([bus_step]) that stores an incoming byte where the last sequential
    receive pointed and then runs the matching callback. *)

From stdpp Require Import base numbers list option.

Local Open Scope Z_scope.

(** ** Machine integers *)

Definition uint8 (z : Z) : Z := z mod 256.
Definition uint16 (z : Z) : Z := z mod 65536.

Definition is_uint8 (z : Z) : Prop := 0 <= z < 256.
Definition is_uint16 (z : Z) : Prop := 0 <= z < 65536.

(** ** Constants and types of the source *)

(** [enum SLAVE_MODE_T]; the enumerators are listed in the order of the
    source, so [MODE_RECEIVING] is the one with value 0. *)
Inductive SLAVE_MODE_T : Set :=
  | MODE_RECEIVING
  | MODE_TRANSMITTING
  | MODE_LISTENING.

#[global] Instance SLAVE_MODE_T_eq_dec : EqDecision SLAVE_MODE_T.
Proof. solve_decision. Defined.

Definition BUFFER_SIZE : Z := 5.
Definition GET_VOLTAGE_REG : Z := 0x08.
Definition SET_VOLTAGE_REG : Z := 0x09.

(** ** The HAL interface used by the callbacks

    The STM32 HAL is the Bus Port of spec section 6 and is not part of the
    repository.  Only what the callbacks pass to it is kept: the transfer
    direction reported on an address match, the frame option of a
    sequential transfer, and the three operations. *)

(** Modelled from the spec: the direction a controller declares on an
    address match, controller-will-write.  The callback only compares the
    direction with [I2C_DIRECTION_RECEIVE]. *)
Definition I2C_DIRECTION_TRANSMIT : Z := 0.

(** Modelled from the spec: the direction controller-will-read. *)
Definition I2C_DIRECTION_RECEIVE : Z := 1.

(** Modelled from the spec: whether a sequential frame is the final one of
    its transaction. *)
Inductive XferOptions : Set :=
  | I2C_NEXT_FRAME
  | I2C_LAST_FRAME.

(** Modelled from the spec: the Bus Port commands of spec section 6.  A
    receive is given [rxBuff + offset]; a transmit is given [txBuff], whose
    contents at the time of the call are kept next to the size. *)
Inductive bus_command : Type :=
  | RearmListen
  | BeginReceive (offset : Z) (Size : Z) (opt : XferOptions)
  | BeginTransmit (pData : list Z) (Size : Z) (opt : XferOptions).

(** ** Program state *)

Record state : Type := mkState {
  (* the file-scope variables of i2c_slave.c *)
  slaveMode : SLAVE_MODE_T;
  rxBuff : list Z;
  rxBuffDataSize : Z;
  txBuff : list Z;
  txBuffDataSize : Z;
  requestedReg : Z;
  fakeVoltage : Z;
  (* the bus port *)
  hal_rx : option Z;          (* offset the next received byte goes to *)
  overrun : list (Z * Z);     (* bytes stored outside rxBuff: offset, value *)
  hal_calls : list bus_command   (* calls made so far, oldest first *)
}.

Definition set_slaveMode (m : SLAVE_MODE_T) (s : state) : state :=
  mkState m (rxBuff s) (rxBuffDataSize s) (txBuff s) (txBuffDataSize s)
          (requestedReg s) (fakeVoltage s) (hal_rx s) (overrun s) (hal_calls s).

Definition set_rxBuff (b : list Z) (s : state) : state :=
  mkState (slaveMode s) b (rxBuffDataSize s) (txBuff s) (txBuffDataSize s)
          (requestedReg s) (fakeVoltage s) (hal_rx s) (overrun s) (hal_calls s).

Definition set_rxBuffDataSize (n : Z) (s : state) : state :=
  mkState (slaveMode s) (rxBuff s) n (txBuff s) (txBuffDataSize s)
          (requestedReg s) (fakeVoltage s) (hal_rx s) (overrun s) (hal_calls s).

Definition set_txBuff (b : list Z) (s : state) : state :=
  mkState (slaveMode s) (rxBuff s) (rxBuffDataSize s) b (txBuffDataSize s)
          (requestedReg s) (fakeVoltage s) (hal_rx s) (overrun s) (hal_calls s).

Definition set_txBuffDataSize (n : Z) (s : state) : state :=
  mkState (slaveMode s) (rxBuff s) (rxBuffDataSize s) (txBuff s) n
          (requestedReg s) (fakeVoltage s) (hal_rx s) (overrun s) (hal_calls s).

Definition set_requestedReg (r : Z) (s : state) : state :=
  mkState (slaveMode s) (rxBuff s) (rxBuffDataSize s) (txBuff s) (txBuffDataSize s)
          r (fakeVoltage s) (hal_rx s) (overrun s) (hal_calls s).

Definition set_fakeVoltage (v : Z) (s : state) : state :=
  mkState (slaveMode s) (rxBuff s) (rxBuffDataSize s) (txBuff s) (txBuffDataSize s)
          (requestedReg s) v (hal_rx s) (overrun s) (hal_calls s).

Definition set_hal_rx (p : option Z) (s : state) : state :=
  mkState (slaveMode s) (rxBuff s) (rxBuffDataSize s) (txBuff s) (txBuffDataSize s)
          (requestedReg s) (fakeVoltage s) p (overrun s) (hal_calls s).

Definition set_overrun (o : list (Z * Z)) (s : state) : state :=
  mkState (slaveMode s) (rxBuff s) (rxBuffDataSize s) (txBuff s) (txBuffDataSize s)
          (requestedReg s) (fakeVoltage s) (hal_rx s) o (hal_calls s).

Definition set_hal_calls (c : list bus_command) (s : state) : state :=
  mkState (slaveMode s) (rxBuff s) (rxBuffDataSize s) (txBuff s) (txBuffDataSize s)
          (requestedReg s) (fakeVoltage s) (hal_rx s) (overrun s) c.

(** Reading [buf[i]]; every read of the source is at a constant index below
    [BUFFER_SIZE]. *)
Definition rd (buf : list Z) (i : nat) : Z := default 0 (buf !! i).

(** A callback body is a sequence of statements, each a state transformer. *)
Definition stmt : Type := state -> state.

Definition seq (c1 c2 : stmt) : stmt := fun s => c2 (c1 s).
Notation "c1 ;;; c2" := (seq c1 c2) (at level 62, right associativity).

Definition skip : stmt := fun s => s.

Definition ite (c : state -> bool) (c1 c2 : stmt) : stmt :=
  fun s => if c s then c1 s else c2 s.

(** ** The HAL operations, as the callbacks see them

    Each call is logged.  The handle has one transfer in flight, so a
    sequential receive records where its byte will go and a sequential
    transmit replaces it. *)

(** Modelled from the spec: a Bus Port command is issued. *)
Definition hal (c : bus_command) : stmt :=
  fun s => set_hal_calls (hal_calls s ++ [c]) s.

(** Modelled from the spec: re-arm address listening. *)
Definition HAL_I2C_EnableListen_IT : stmt := hal RearmListen.

(** Modelled from the spec: begin a sequential receive at an offset into
    [rxBuff]. *)
Definition HAL_I2C_Slave_Seq_Receive_IT (offset Size : Z) (opt : XferOptions) : stmt :=
  hal (BeginReceive offset Size opt) ;;; set_hal_rx (Some offset).

(** Modelled from the spec: begin a sequential transmit of the first
    [Size] bytes of the buffer. *)
Definition HAL_I2C_Slave_Seq_Transmit_IT (pData : list Z) (Size : Z) (opt : XferOptions) : stmt :=
  hal (BeginTransmit pData Size opt) ;;; set_hal_rx None.

(** ** The functions of i2c_slave.c

    The [printf] calls are diagnostics and are left out; so is the [hi2c]
    argument, since there is a single handle. *)

(** Static storage before [I2C_SLAVE_Init] runs: everything is zero, which
    for [slaveMode] is [MODE_RECEIVING]. *)
Definition static_state : state :=
  {| slaveMode := MODE_RECEIVING;
     rxBuff := replicate (Z.to_nat BUFFER_SIZE) 0;
     rxBuffDataSize := 0;
     txBuff := replicate (Z.to_nat BUFFER_SIZE) 0;
     txBuffDataSize := 0;
     requestedReg := 0;
     fakeVoltage := 0;
     hal_rx := None;
     overrun := [];
     hal_calls := [] |}.

Definition I2C_SLAVE_Init : stmt :=
  HAL_I2C_EnableListen_IT ;;;
  set_requestedReg 0 ;;;
  set_fakeVoltage 3542 ;;;
  set_slaveMode MODE_LISTENING.

(** [AddrMatchCode] is not used by the body and is not modelled. *)
Definition HAL_I2C_AddrCallback (TransferDirection : Z) : stmt :=
  if decide (TransferDirection = I2C_DIRECTION_RECEIVE) then
    set_slaveMode MODE_TRANSMITTING ;;;
    ite (fun s => bool_decide (requestedReg s = GET_VOLTAGE_REG))
      ((fun s => set_txBuff (<[0%nat := uint8 (Z.shiftr (fakeVoltage s) 8)]> (txBuff s)) s) ;;;
       (fun s => set_txBuff (<[1%nat := uint8 (Z.land (fakeVoltage s) 0xFF)]> (txBuff s)) s) ;;;
       set_txBuffDataSize 2)
      ((fun s => set_txBuff (<[0%nat := 0xFF]> (txBuff s)) s) ;;;
       (fun s => set_txBuff (<[1%nat := 0xFF]> (txBuff s)) s) ;;;
       set_txBuffDataSize 2) ;;;
    (fun s => HAL_I2C_Slave_Seq_Transmit_IT (txBuff s) (txBuffDataSize s) I2C_LAST_FRAME s) ;;;
    set_requestedReg 0
  else
    set_slaveMode MODE_RECEIVING ;;;
    (fun s => HAL_I2C_Slave_Seq_Receive_IT (rxBuffDataSize s) 1 I2C_NEXT_FRAME s).

(** The loop that prints the received bytes has no effect on the state. *)
Definition HAL_I2C_ListenCpltCallback : stmt :=
  set_slaveMode MODE_LISTENING ;;;
  ite (fun s => bool_decide (rxBuffDataSize s = 1))
    (fun s => set_requestedReg (rd (rxBuff s) 0) s)
    (ite (fun s => bool_decide (rxBuffDataSize s > 1))
       ((fun s => set_requestedReg (rd (rxBuff s) 0) s) ;;;
        (fun s => set_fakeVoltage
                    (uint16 (Z.lor (Z.shiftl (rd (rxBuff s) 1) 8)
                                   (Z.land (rd (rxBuff s) 2) 0xFF))) s))
       skip) ;;;
  set_rxBuff (replicate (Z.to_nat BUFFER_SIZE) 0) ;;;
  set_rxBuffDataSize 0 ;;;
  HAL_I2C_EnableListen_IT.

(** The bound check of the source is inside a comment; what runs is the
    increment and the re-arm. *)
Definition HAL_I2C_SlaveRxCpltCallback : stmt :=
  (fun s => set_rxBuffDataSize (uint8 (rxBuffDataSize s + 1)) s) ;;;
  ite (fun s => bool_decide (slaveMode s = MODE_RECEIVING))
    (fun s => HAL_I2C_Slave_Seq_Receive_IT (rxBuffDataSize s) 1 I2C_NEXT_FRAME s)
    skip.

Definition HAL_I2C_SlaveTxCpltCallback : stmt :=
  set_txBuffDataSize 0.

Definition HAL_I2C_ErrorCallback : stmt :=
  HAL_I2C_EnableListen_IT.

(** ** The bus: events and traces *)

(** Modelled from the spec: the five events of spec section 4.1, as the
    Bus Port raises them. *)
Inductive event : Type :=
  | AddressMatched (TransferDirection : Z)
  | ByteReceived (b : Z)
  | TransferComplete
  | ListenComplete
  | Error.

(** Modelled from the spec: the Bus Port puts a received byte, as a
    [uint8_t], where the pending receive pointed: inside [rxBuff] when the
    offset is below [BUFFER_SIZE], in the memory behind it otherwise.  C
    gives the program no defined behaviour from such a store on, so the
    [overrun] list only records that the store was made and where: the
    variables of a state whose [overrun] list has grown are not those of
    the program. *)
Definition store_rx (offset b : Z) : stmt :=
  fun s =>
    if bool_decide (0 <= offset < BUFFER_SIZE)
    then set_rxBuff (<[Z.to_nat offset := uint8 b]> (rxBuff s)) s
    else set_overrun (overrun s ++ [(offset, uint8 b)]) s.

(** Modelled from the spec: how the Bus Port turns an event into a call of
    the matching callback.  A byte can only arrive while a sequential
    receive is pending; it is stored before the receive-complete callback
    runs.  A stop condition or a bus fault ends whatever transfer was
    pending. *)
Definition bus_step (e : event) (s : state) : option state :=
  match e with
  | AddressMatched d => Some (HAL_I2C_AddrCallback d s)
  | ByteReceived b =>
      match hal_rx s with
      | Some offset =>
          Some ((store_rx offset b ;;; set_hal_rx None ;;;
                 HAL_I2C_SlaveRxCpltCallback) s)
      | None => None
      end
  | TransferComplete => Some (HAL_I2C_SlaveTxCpltCallback s)
  | ListenComplete => Some ((set_hal_rx None ;;; HAL_I2C_ListenCpltCallback) s)
  | Error => Some ((set_hal_rx None ;;; HAL_I2C_ErrorCallback) s)
  end.

Fixpoint run (evs : list event) (s : state) : option state :=
  match evs with
  | [] => Some s
  | e :: evs' => bus_step e s ≫= run evs'
  end.

(** The state the application starts from. *)
Definition init_state : state := I2C_SLAVE_Init static_state.

(** The wire protocol of spec section 6, from the controller's side. *)
Definition write_transaction (bytes : list Z) : list event :=
  AddressMatched I2C_DIRECTION_TRANSMIT :: (ByteReceived <$> bytes) ++ [ListenComplete].

Definition read_transaction : list event :=
  [AddressMatched I2C_DIRECTION_RECEIVE; TransferComplete; ListenComplete].

Definition GET (reg : Z) : list event :=
  write_transaction [reg] ++ read_transaction.

Definition SET (reg v : Z) : list event :=
  write_transaction [reg; Z.shiftr v 8; Z.land v 0xFF].

(** What the controller reads back: the bytes of every sequential transmit
    handed to the bus port, oldest first. *)
Definition sent (c : bus_command) : option (list Z) :=
  match c with
  | BeginTransmit pData Size _ => Some (take (Z.to_nat Size) pData)
  | _ => None
  end.

Definition responses (s : state) : list (list Z) := omap sent (hal_calls s).

Definition last_response (s : state) : option (list Z) := list.last (responses s).

(** The variables a write-direction byte leaves alone. *)
Record rx_frame (s s' : state) : Prop := {
  frame_txBuff : txBuff s' = txBuff s;
  frame_txBuffDataSize : txBuffDataSize s' = txBuffDataSize s;
  frame_requestedReg : requestedReg s' = requestedReg s;
  frame_fakeVoltage : fakeVoltage s' = fakeVoltage s;
  frame_overrun : overrun s' = overrun s;
  frame_responses : responses s' = responses s
}.

(** What [HAL_I2C_ListenCpltCallback] makes of the inbound buffer: the
    requested register and the voltage after it, given the fill count, the
    buffer and the value before. *)
Definition selected (count : Z) (rx : list Z) (old : Z) : Z :=
  if bool_decide (count = 1) then rd rx 0
  else if bool_decide (count > 1) then rd rx 0
  else old.

Definition written (count : Z) (rx : list Z) (old : Z) : Z :=
  if bool_decide (count = 1) then old
  else if bool_decide (count > 1)
       then uint16 (Z.lor (Z.shiftl (rd rx 1) 8) (Z.land (rd rx 2) 0xFF))
       else old.

(** The inbound buffer at the stop condition of a write of [bytes] that
    started on an empty buffer [rx]. *)
Definition inbound (bytes rx : list Z) : list Z :=
  (uint8 <$> bytes) ++ drop (length bytes) rx.

(** ** Well-formed states

    What the C types and the array declarations guarantee. *)
Record wf (s : state) : Prop := {
  wf_rxBuff : length (rxBuff s) = Z.to_nat BUFFER_SIZE;
  wf_rxBytes : Forall is_uint8 (rxBuff s);
  wf_rxBuffDataSize : is_uint8 (rxBuffDataSize s);
  wf_txBuff : length (txBuff s) = Z.to_nat BUFFER_SIZE;
  wf_txBytes : Forall is_uint8 (txBuff s);
  wf_txBuffDataSize : is_uint8 (txBuffDataSize s);
  wf_requestedReg : is_uint8 (requestedReg s);
  wf_fakeVoltage : is_uint16 (fakeVoltage s)
}.

(** Between transactions: the inbound buffer is empty and cleared. *)
Record idle (s : state) : Prop := {
  idle_wf : wf s;
  idle_count : rxBuffDataSize s = 0;
  idle_rxBuff : rxBuff s = replicate (Z.to_nat BUFFER_SIZE) 0
}.

(** ** The register dispatcher, in the words of spec section 4.2 *)

Definition big_endian (hi lo : Z) : Z := hi * 256 + lo.

Definition spec_build_response (registerId value : Z) : list Z :=
  if decide (registerId = GET_VOLTAGE_REG)
  then [value / 256; value mod 256]
  else [0xFF; 0xFF].

(** ** Sessions of transactions *)

Inductive transaction : Type :=
  | Read
  | Write (bytes : list Z).

Definition events (t : transaction) : list event :=
  match t with
  | Read => read_transaction
  | Write bytes => write_transaction bytes
  end.

Definition session (ts : list transaction) : list event := concat (events <$> ts).

(** A transaction the inbound buffer can hold. *)
Definition fits (t : transaction) : Prop :=
  match t with
  | Read => True
  | Write bytes => Forall is_uint8 bytes /\ (length bytes <= Z.to_nat BUFFER_SIZE)%nat
  end.

(** A transaction that carries no payload: a read, or a write of at most
    the register byte. *)
Definition register_only (t : transaction) : Prop :=
  match t with
  | Read => True
  | Write bytes => Forall is_uint8 bytes /\ (length bytes <= 1)%nat
  end.

(** C3 as the claim words it: whenever a run from the initial state ends
    with ListenComplete or Error, the mode is Listening and both fill
    counts are zero. *)
Definition C3_as_stated : Prop :=
  forall (evs : list event) (e : event) (s' : state),
    e = ListenComplete \/ e = Error ->
    run (evs ++ [e]) init_state = Some s' ->
    slaveMode s' = MODE_LISTENING /\ rxBuffDataSize s' = 0 /\ txBuffDataSize s' = 0.

(** C4 as the claim words it, for zero or one byte: on ListenComplete the
    requested register becomes the register the inbound buffer selects,
    its first byte, and the voltage is unchanged. *)
Definition C4_as_stated : Prop :=
  forall (evs : list event) (s s' : state),
    run evs init_state = Some s ->
    0 <= rxBuffDataSize s <= 1 ->
    bus_step ListenComplete s = Some s' ->
    requestedReg s' = rd (rxBuff s) 0 /\ fakeVoltage s' = fakeVoltage s.

(** ** Accounting of bus commands and events *)

(** The receive requests a write of [n - 1] bytes makes on an empty buffer:
    one byte each, not the final frame, at the offsets 0, 1, ..., [n - 1]. *)
Definition receive_requests (n : nat) : list bus_command :=
  (fun i => BeginReceive (Z.of_nat i) 1 I2C_NEXT_FRAME) <$> List.seq 0 n.

Definition is_rearm (c : bus_command) : bool :=
  match c with
  | RearmListen => true
  | _ => false
  end.

(** The events that end a transfer: a stop condition or a bus fault. *)
Definition ends_transfer (e : event) : bool :=
  match e with
  | ListenComplete | Error => true
  | _ => false
  end.

(** An address match by which the controller asks to read. *)
Definition is_read_match (e : event) : bool :=
  match e with
  | AddressMatched d => bool_decide (d = I2C_DIRECTION_RECEIVE)
  | _ => false
  end.

(** A response as the controller sees it: two bytes. *)
Definition two_bytes (r : list Z) : Prop :=
  length r = 2%nat /\ Forall is_uint8 r.

(** A write cut short by a bus fault after the bytes [bs]. *)
Definition aborted_write (bs : list Z) : list event :=
  AddressMatched I2C_DIRECTION_TRANSMIT :: (ByteReceived <$> bs) ++ [Error].

(** * Proofs *)

Ltac unfold_stmt :=
  unfold HAL_I2C_AddrCallback, HAL_I2C_ListenCpltCallback,
         HAL_I2C_SlaveRxCpltCallback, HAL_I2C_SlaveTxCpltCallback,
         HAL_I2C_ErrorCallback, I2C_SLAVE_Init, store_rx,
         HAL_I2C_Slave_Seq_Receive_IT, HAL_I2C_Slave_Seq_Transmit_IT,
         HAL_I2C_EnableListen_IT, hal, seq, ite, skip.

(** ** Byte arithmetic *)

Lemma uint8_id (z : Z) : is_uint8 z -> uint8 z = z.
Proof. unfold uint8, is_uint8. intros H. apply Z.mod_small. lia. Qed.

Lemma uint16_id (z : Z) : is_uint16 z -> uint16 z = z.
Proof. unfold uint16, is_uint16. intros H. apply Z.mod_small. lia. Qed.

Lemma uint8_range (z : Z) : is_uint8 (uint8 z).
Proof. unfold uint8, is_uint8. apply Z.mod_pos_bound. lia. Qed.

Lemma uint16_range (z : Z) : is_uint16 (uint16 z).
Proof. unfold uint16, is_uint16. apply Z.mod_pos_bound. lia. Qed.

Lemma land_255 (z : Z) : Z.land z 0xFF = z mod 256.
Proof. change 0xFF with (Z.ones 8). rewrite Z.land_ones by lia. reflexivity. Qed.

Lemma shiftr_8 (z : Z) : Z.shiftr z 8 = z / 256.
Proof. rewrite Z.shiftr_div_pow2 by lia. reflexivity. Qed.

Lemma lor_shiftl_8 (hi lo : Z) :
  is_uint8 lo -> Z.lor (Z.shiftl hi 8) lo = hi * 256 + lo.
Proof.
  unfold is_uint8. intros Hlo.
  assert (Hdisj : Z.land (Z.shiftl hi 8) lo = 0).
  { apply Z.bits_inj'. intros n Hn.
    rewrite Z.land_spec, Z.bits_0.
    destruct (decide (n < 8)) as [Hlt|Hge].
    - rewrite Z.shiftl_spec_low by lia. reflexivity.
    - replace lo with (lo mod 2 ^ 8) by (apply Z.mod_small; lia).
      rewrite Z.mod_pow2_bits_high by lia. apply andb_false_r. }
  rewrite <- Z.lxor_lor by exact Hdisj.
  rewrite <- Z.add_nocarry_lxor by exact Hdisj.
  rewrite Z.shiftl_mul_pow2 by lia. reflexivity.
Qed.

(** The expression assigned to [fakeVoltage], on two bytes, is the
    big-endian value of the pair. *)
Lemma decode_big_endian (hi lo : Z) :
  is_uint8 hi -> is_uint8 lo ->
  uint16 (Z.lor (Z.shiftl hi 8) (Z.land lo 0xFF)) = hi * 256 + lo.
Proof.
  intros Hhi Hlo. rewrite land_255.
  change (lo mod 256) with (uint8 lo). rewrite (uint8_id lo) by exact Hlo.
  rewrite lor_shiftl_8 by exact Hlo.
  apply uint16_id. unfold is_uint8, is_uint16 in *. lia.
Qed.

Lemma split_big_endian (v : Z) :
  is_uint16 v ->
  is_uint8 (Z.shiftr v 8) /\ is_uint8 (Z.land v 0xFF) /\
  Z.shiftr v 8 * 256 + Z.land v 0xFF = v.
Proof.
  unfold is_uint16, is_uint8. intros Hv. rewrite shiftr_8, land_255.
  pose proof (Z.div_mod v 256 ltac:(lia)).
  pose proof (Z.mod_pos_bound v 256 ltac:(lia)).
  assert (0 <= v / 256 < 256) by (split; [apply Z.div_pos; lia | apply Z.div_lt_upper_bound; lia]).
  lia.
Qed.

(** ** Running traces *)

Lemma run_cons (e : event) (evs : list event) (s : state) :
  run (e :: evs) s = bus_step e s ≫= run evs.
Proof. reflexivity. Qed.

Lemma run_single (e : event) (s : state) : run [e] s = bus_step e s.
Proof. simpl. destruct (bus_step e s); reflexivity. Qed.

Lemma Some_bind {A B : Type} (x : A) (f : A -> option B) : Some x ≫= f = f x.
Proof. reflexivity. Qed.

Lemma run_app (evs1 evs2 : list event) (s : state) :
  run (evs1 ++ evs2) s = run evs1 s ≫= run evs2.
Proof.
  revert s. induction evs1 as [|e evs1 IH]; intros s; simpl; [reflexivity|].
  destruct (bus_step e s) as [s1|]; simpl; [apply IH | reflexivity].
Qed.

Lemma rx_frame_trans (s1 s2 s3 : state) :
  rx_frame s1 s2 -> rx_frame s2 s3 -> rx_frame s1 s3.
Proof. intros [] []. split; congruence. Qed.

(** One byte, received while the buffer still has room. *)
Lemma byte_received_in_bounds (b : Z) (k : nat) (s : state) :
  slaveMode s = MODE_RECEIVING ->
  hal_rx s = Some (Z.of_nat k) ->
  rxBuffDataSize s = Z.of_nat k ->
  (k < Z.to_nat BUFFER_SIZE)%nat ->
  exists s',
    bus_step (ByteReceived b) s = Some s' /\
    slaveMode s' = MODE_RECEIVING /\
    hal_rx s' = Some (Z.of_nat (S k)) /\
    rxBuffDataSize s' = Z.of_nat (S k) /\
    rxBuff s' = <[k := uint8 b]> (rxBuff s) /\
    rx_frame s s'.
Proof.
  intros Hmode Hrx Hcount Hk. change (Z.to_nat BUFFER_SIZE) with 5%nat in Hk.
  destruct s as [m rx n tx tn r v p o c]. simpl in *. subst m p n.
  assert (Hwrap : uint8 (Z.of_nat k + 1) = Z.of_nat (S k)).
  { replace (Z.of_nat (S k)) with (Z.of_nat k + 1) by lia.
    apply uint8_id. unfold is_uint8. lia. }
  eexists. split; [reflexivity|].
  unfold_stmt. simpl.
  rewrite (bool_decide_true (0 <= Z.of_nat k < BUFFER_SIZE)) by (unfold BUFFER_SIZE; lia).
  simpl. rewrite Hwrap, Nat2Z.id.
  repeat split.
  unfold responses. simpl. rewrite omap_app. simpl. apply app_nil_r.
Qed.

(** The receive loop: bytes that fit land one after the other, starting at
    the fill count, and nothing else changes. *)
Lemma run_receive (bs : list Z) :
  forall (k : nat) (s : state),
    slaveMode s = MODE_RECEIVING ->
    hal_rx s = Some (Z.of_nat k) ->
    rxBuffDataSize s = Z.of_nat k ->
    length (rxBuff s) = Z.to_nat BUFFER_SIZE ->
    (k + length bs <= Z.to_nat BUFFER_SIZE)%nat ->
    exists s',
      run (ByteReceived <$> bs) s = Some s' /\
      slaveMode s' = MODE_RECEIVING /\
      rxBuffDataSize s' = Z.of_nat (k + length bs) /\
      rxBuff s' = take k (rxBuff s) ++ (uint8 <$> bs) ++ drop (k + length bs) (rxBuff s) /\
      rx_frame s s'.
Proof.
  induction bs as [|b bs IH]; intros k s Hmode Hrx Hcount Hlen Hfit.
  - exists s. simpl. rewrite Nat.add_0_r, take_drop.
    repeat split; auto.
  - simpl in Hfit.
    destruct (byte_received_in_bounds b k s Hmode Hrx Hcount ltac:(lia))
      as (s1 & Hstep & Hmode1 & Hrx1 & Hcount1 & Hbuf1 & Hframe1).
    destruct (IH (S k) s1 Hmode1 Hrx1 Hcount1) as (s' & Hrun & Hmode' & Hcount' & Hbuf' & Hframe').
    { rewrite Hbuf1, length_insert. exact Hlen. }
    { lia. }
    exists s'. rewrite fmap_cons, run_cons, Hstep.
    split; [exact Hrun|]. split; [exact Hmode'|].
    split; [rewrite Hcount'; simpl; f_equal; lia|].
    split; [|eapply rx_frame_trans; eassumption].
    rewrite Hbuf', Hbuf1.
    assert (Hk : (k < length (rxBuff s))%nat) by lia.
    rewrite (take_S_r _ _ (uint8 b)).
    2:{ apply list_lookup_insert_eq. exact Hk. }
    rewrite take_insert_ge by lia.
    rewrite drop_insert_lt by lia.
    rewrite <- app_assoc. simpl.
    replace (k + S (length bs))%nat with (S (k + length bs)) by lia.
    reflexivity.
Qed.

(** Address match for a write: the mode changes and one byte is requested
    at the current fill count. *)
Lemma address_matched_write (s : state) :
  exists s',
    bus_step (AddressMatched I2C_DIRECTION_TRANSMIT) s = Some s' /\
    slaveMode s' = MODE_RECEIVING /\
    hal_rx s' = Some (rxBuffDataSize s) /\
    rxBuffDataSize s' = rxBuffDataSize s /\
    rxBuff s' = rxBuff s /\
    rx_frame s s'.
Proof.
  destruct s as [m rx n tx tn r v p o c].
  eexists. split; [reflexivity|].
  unfold_stmt. simpl. repeat split.
  unfold responses. simpl. rewrite omap_app. simpl. apply app_nil_r.
Qed.

Lemma listen_complete (s : state) :
  exists s',
    bus_step ListenComplete s = Some s' /\
    slaveMode s' = MODE_LISTENING /\
    rxBuffDataSize s' = 0 /\
    rxBuff s' = replicate (Z.to_nat BUFFER_SIZE) 0 /\
    hal_rx s' = None /\
    requestedReg s' = selected (rxBuffDataSize s) (rxBuff s) (requestedReg s) /\
    fakeVoltage s' = written (rxBuffDataSize s) (rxBuff s) (fakeVoltage s) /\
    txBuff s' = txBuff s /\
    txBuffDataSize s' = txBuffDataSize s /\
    overrun s' = overrun s /\
    responses s' = responses s /\
    hal_calls s' = hal_calls s ++ [RearmListen].
Proof.
  destruct s as [m rx n tx tn r v p o c].
  eexists. split; [reflexivity|].
  unfold_stmt. unfold selected, written. simpl.
  destruct (bool_decide (n = 1)); [|destruct (bool_decide (n > 1))];
    simpl; repeat split;
    unfold responses; simpl; rewrite omap_app; simpl; apply app_nil_r.
Qed.

(** A whole write transaction that fits the buffer. *)
Lemma write_transaction_run (bytes : list Z) (s : state) :
  rxBuffDataSize s = 0 ->
  length (rxBuff s) = Z.to_nat BUFFER_SIZE ->
  (length bytes <= Z.to_nat BUFFER_SIZE)%nat ->
  exists s',
    run (write_transaction bytes) s = Some s' /\
    slaveMode s' = MODE_LISTENING /\
    rxBuffDataSize s' = 0 /\
    rxBuff s' = replicate (Z.to_nat BUFFER_SIZE) 0 /\
    requestedReg s' =
      selected (Z.of_nat (length bytes)) (inbound bytes (rxBuff s)) (requestedReg s) /\
    fakeVoltage s' =
      written (Z.of_nat (length bytes)) (inbound bytes (rxBuff s)) (fakeVoltage s) /\
    txBuff s' = txBuff s /\
    txBuffDataSize s' = txBuffDataSize s /\
    overrun s' = overrun s /\
    responses s' = responses s.
Proof.
  intros Hcount Hlen Hfit.
  destruct (address_matched_write s)
    as (s1 & Hstep1 & Hmode1 & Hrx1 & Hcount1 & Hbuf1 & Hframe1).
  rewrite Hcount in Hrx1. rewrite Hcount in Hcount1.
  destruct (run_receive bytes 0 s1 Hmode1 Hrx1 Hcount1)
    as (s2 & Hrun2 & Hmode2 & Hcount2 & Hbuf2 & Hframe2).
  { rewrite Hbuf1. exact Hlen. }
  { simpl. exact Hfit. }
  destruct (listen_complete s2)
    as (s3 & Hstep3 & Hmode3 & Hcount3 & Hbuf3 & _ & Hreg3 & Hvolt3 & Htx3 & Hn3 & Ho3 & Hr3 & _).
  exists s3.
  split.
  { unfold write_transaction.
    rewrite run_cons, Hstep1, Some_bind, run_app, Hrun2, Some_bind, run_single.
    exact Hstep3. }
  destruct Hframe1, Hframe2. simpl in Hcount2, Hbuf2. rewrite Hbuf1 in Hbuf2.
  unfold inbound. rewrite <- Hbuf2, <- Hcount2.
  repeat split; congruence.
Qed.

(** ** Well-formedness is an invariant *)

Lemma Forall_uint8_zeros (n : nat) : Forall is_uint8 (replicate n 0).
Proof. apply Forall_replicate. unfold is_uint8. lia. Qed.

Lemma Forall_uint8_insert (l : list Z) (i : nat) (b : Z) :
  Forall is_uint8 l -> is_uint8 b -> Forall is_uint8 (<[i := b]> l).
Proof. intros Hl Hb. apply Forall_insert; assumption. Qed.

Lemma rd_uint8 (l : list Z) (i : nat) : Forall is_uint8 l -> is_uint8 (rd l i).
Proof.
  intros Hl. unfold rd. destruct (l !! i) as [x|] eqn:Hx; simpl.
  - eapply Forall_lookup_1; eassumption.
  - unfold is_uint8. lia.
Qed.

Lemma wf_static : wf static_state.
Proof.
  split; simpl;
    first [ reflexivity
          | unfold is_uint8, is_uint16; lia
          | exact (Forall_uint8_zeros 5) ].
Qed.

Lemma wf_init : wf init_state.
Proof.
  split; simpl;
    first [ reflexivity
          | unfold is_uint8, is_uint16; lia
          | exact (Forall_uint8_zeros 5) ].
Qed.

Lemma idle_init : idle init_state.
Proof. split; [apply wf_init | reflexivity | reflexivity]. Qed.

(** Every event keeps the state well formed. *)
Lemma wf_bus_step (e : event) (s s' : state) :
  wf s -> bus_step e s = Some s' -> wf s'.
Proof.
  intros [Hrx Hrxb Hn Htx Htxb Htn Hr Hv] Hstep.
  destruct s as [m rx n tx tn r v p o c]. simpl in *.
  assert (H2 : is_uint8 2) by (unfold is_uint8; lia).
  assert (H0 : is_uint8 0) by (unfold is_uint8; lia).
  assert (HFF : is_uint8 0xFF) by (unfold is_uint8; lia).
  destruct e as [d|b| | |]; simpl in Hstep.
  - injection Hstep as <-. unfold_stmt.
    destruct (decide (d = I2C_DIRECTION_RECEIVE)); simpl.
    + destruct (bool_decide (r = GET_VOLTAGE_REG)); simpl;
        split; simpl; rewrite ?length_insert; auto;
        repeat apply Forall_uint8_insert; auto using uint8_range.
    + split; simpl; auto.
  - destruct p as [offset|]; [|discriminate].
    injection Hstep as <-. unfold_stmt. simpl.
    destruct (bool_decide (0 <= offset < BUFFER_SIZE)); simpl;
      destruct (bool_decide (m = MODE_RECEIVING)); simpl;
      split; simpl; rewrite ?length_insert; auto using uint8_range;
      apply Forall_uint8_insert; auto using uint8_range.
  - injection Hstep as <-. unfold_stmt. split; simpl; auto.
  - injection Hstep as <-. unfold_stmt. simpl.
    destruct (bool_decide (n = 1)); [|destruct (bool_decide (n > 1))]; simpl;
      split; simpl;
      auto using rd_uint8, uint16_range; exact (Forall_uint8_zeros 5).
  - injection Hstep as <-. unfold_stmt. split; simpl; auto.
Qed.

Lemma wf_run (evs : list event) :
  forall s s', wf s -> run evs s = Some s' -> wf s'.
Proof.
  induction evs as [|e evs IH]; intros s s' Hwf Hrun.
  - simpl in Hrun. injection Hrun as <-. exact Hwf.
  - rewrite run_cons in Hrun.
    destruct (bus_step e s) as [s1|] eqn:Hstep; [|discriminate].
    rewrite Some_bind in Hrun.
    eapply IH; [eapply wf_bus_step; eassumption | exact Hrun].
Qed.

(** ** Whole transactions *)

Lemma voltage_bytes (v : Z) :
  is_uint16 v ->
  uint8 (Z.shiftr v 8) = v / 256 /\ uint8 (Z.land v 0xFF) = v mod 256.
Proof.
  intros Hv. destruct (split_big_endian v Hv) as (Hhi & Hlo & _).
  rewrite (uint8_id _ Hhi), (uint8_id _ Hlo), shiftr_8, land_255. split; reflexivity.
Qed.

(** Address match for a read. *)
Lemma address_matched_read (s : state) :
  wf s ->
  exists s',
    bus_step (AddressMatched I2C_DIRECTION_RECEIVE) s = Some s' /\
    slaveMode s' = MODE_TRANSMITTING /\
    txBuffDataSize s' = 2 /\
    take 2 (txBuff s') = spec_build_response (requestedReg s) (fakeVoltage s) /\
    hal_calls s' =
      hal_calls s ++ [BeginTransmit (txBuff s') 2 I2C_LAST_FRAME] /\
    requestedReg s' = 0 /\
    fakeVoltage s' = fakeVoltage s /\
    rxBuff s' = rxBuff s /\
    rxBuffDataSize s' = rxBuffDataSize s /\
    overrun s' = overrun s /\
    responses s' = responses s ++ [spec_build_response (requestedReg s) (fakeVoltage s)].
Proof.
  intros [_ _ _ Htx _ _ _ Hv].
  destruct s as [m rx n tx tn r v p o c]. simpl in *.
  destruct tx as [|t0 [|t1 tx]]; try discriminate Htx.
  destruct (voltage_bytes v Hv) as [Hhi Hlo].
  eexists. split; [reflexivity|].
  unfold_stmt. unfold spec_build_response, responses. simpl.
  destruct (decide (r = GET_VOLTAGE_REG)) as [Hr|Hr].
  - rewrite (bool_decide_true _ Hr). simpl. rewrite omap_app, Hhi, Hlo.
    repeat split.
  - rewrite (bool_decide_false _ Hr). simpl. rewrite omap_app.
    repeat split.
Qed.

Lemma transfer_complete (s : state) :
  exists s',
    bus_step TransferComplete s = Some s' /\
    txBuffDataSize s' = 0 /\
    slaveMode s' = slaveMode s /\
    rxBuff s' = rxBuff s /\
    rxBuffDataSize s' = rxBuffDataSize s /\
    txBuff s' = txBuff s /\
    requestedReg s' = requestedReg s /\
    fakeVoltage s' = fakeVoltage s /\
    overrun s' = overrun s /\
    hal_calls s' = hal_calls s.
Proof.
  destruct s as [m rx n tx tn r v p o c].
  eexists. split; [reflexivity|]. unfold_stmt. simpl. repeat split.
Qed.

(** A whole read transaction, started between transactions. *)
Lemma read_transaction_run (s : state) :
  idle s ->
  exists s',
    run read_transaction s = Some s' /\
    idle s' /\
    slaveMode s' = MODE_LISTENING /\
    txBuffDataSize s' = 0 /\
    requestedReg s' = 0 /\
    fakeVoltage s' = fakeVoltage s /\
    overrun s' = overrun s /\
    responses s' = responses s ++ [spec_build_response (requestedReg s) (fakeVoltage s)].
Proof.
  intros [Hwf Hcount Hbuf].
  destruct (address_matched_read s Hwf)
    as (s1 & Hstep1 & _ & _ & _ & _ & Hr1 & Hv1 & Hb1 & Hn1 & Ho1 & Hresp1).
  destruct (transfer_complete s1)
    as (s2 & Hstep2 & Htn2 & _ & Hb2 & Hn2 & _ & Hr2 & Hv2 & Ho2 & Hc2).
  destruct (listen_complete s2)
    as (s3 & Hstep3 & Hmode3 & Hn3 & Hb3 & _ & Hr3 & Hv3 & _ & Htn3 & Ho3 & Hresp3 & _).
  assert (Hrun : run read_transaction s = Some s3).
  { unfold read_transaction.
    rewrite run_cons, Hstep1, Some_bind, run_cons, Hstep2, Some_bind, run_single.
    exact Hstep3. }
  assert (Hzero : rxBuffDataSize s2 = 0) by congruence.
  rewrite Hzero in Hr3, Hv3. unfold selected, written in Hr3, Hv3. simpl in Hr3, Hv3.
  exists s3. split; [exact Hrun|].
  split.
  { split; [eapply wf_run; eassumption | exact Hn3 | exact Hb3]. }
  repeat split; try congruence.
  rewrite Hresp3. unfold responses. rewrite Hc2. exact Hresp1.
Qed.

(** A write transaction that fits the buffer, started between transactions:
    the first byte selects a register when there is one, and a second byte
    makes the pair after the register the new voltage, a missing third byte
    reading as the zero the cleared buffer holds. *)
Lemma write_transaction_idle (bytes : list Z) (s : state) :
  idle s ->
  Forall is_uint8 bytes ->
  (length bytes <= Z.to_nat BUFFER_SIZE)%nat ->
  exists s',
    run (write_transaction bytes) s = Some s' /\
    idle s' /\
    slaveMode s' = MODE_LISTENING /\
    txBuffDataSize s' = txBuffDataSize s /\
    overrun s' = overrun s /\
    responses s' = responses s /\
    requestedReg s' =
      match bytes with
      | [] => requestedReg s
      | reg :: _ => reg
      end /\
    fakeVoltage s' =
      match bytes with
      | _ :: hi :: rest => big_endian hi (default 0 (head rest))
      | _ => fakeVoltage s
      end.
Proof.
  intros [Hwf Hcount Hbuf] Hbytes Hfit.
  destruct (write_transaction_run bytes s Hcount (wf_rxBuff s Hwf) Hfit)
    as (s' & Hrun & Hmode & Hn & Hb & Hr & Hv & _ & Htn & Ho & Hresp).
  exists s'. split; [exact Hrun|].
  split.
  { split; [eapply wf_run; eassumption | exact Hn | exact Hb]. }
  do 4 (split; [assumption|]).
  rewrite Hbuf in Hr, Hv. clear Hrun Hmode Hn Hb Htn Ho Hresp Hbuf Hcount Hwf.
  destruct bytes as [|reg [|hi rest]].
  - split; assumption.
  - apply Forall_cons_1 in Hbytes as [Hreg _].
    unfold selected, written, inbound in *. simpl in Hr, Hv.
    rewrite (uint8_id _ Hreg) in Hr. split; assumption.
  - apply Forall_cons_1 in Hbytes as [Hreg Hbytes].
    apply Forall_cons_1 in Hbytes as [Hhi Hrest].
    assert (Hgt : bool_decide (Z.of_nat (length (reg :: hi :: rest)) > 1) = true).
    { apply bool_decide_eq_true. simpl length. lia. }
    assert (Hne : bool_decide (Z.of_nat (length (reg :: hi :: rest)) = 1) = false).
    { apply bool_decide_eq_false. simpl length. lia. }
    unfold selected, written in Hr, Hv. rewrite Hne, Hgt in Hr, Hv.
    unfold inbound, rd in Hr, Hv. simpl in Hr.
    rewrite (uint8_id _ Hreg) in Hr. split; [exact Hr|].
    rewrite Hv. unfold big_endian.
    assert (Hlo : is_uint8 (default 0 (head rest))).
    { destruct rest as [|lo rest]; simpl.
      - unfold is_uint8; lia.
      - apply Forall_cons_1 in Hrest as [Hlo _]. exact Hlo. }
    rewrite <- (decode_big_endian hi _ Hhi Hlo).
    destruct rest as [|lo rest]; simpl in *.
    + rewrite (uint8_id _ Hhi). reflexivity.
    + rewrite (uint8_id _ Hhi), (uint8_id _ Hlo). reflexivity.
Qed.

(** Every transaction that fits, started between transactions with nothing
    left to transmit, ends between transactions, in listening mode, with
    nothing left to transmit. *)
Lemma transaction_ends_listening (t : transaction) (s : state) :
  idle s -> txBuffDataSize s = 0 -> fits t ->
  exists s',
    run (events t) s = Some s' /\
    idle s' /\ slaveMode s' = MODE_LISTENING /\ txBuffDataSize s' = 0.
Proof.
  intros Hidle Htn Ht. destruct t as [|bytes]; simpl in *.
  - destruct (read_transaction_run s Hidle) as (s' & Hrun & Hidle' & Hm & Htn' & _).
    exists s'. auto.
  - destruct Ht as [Hbytes Hlen].
    destruct (write_transaction_idle bytes s Hidle Hbytes Hlen)
      as (s' & Hrun & Hidle' & Hm & Htn' & _).
    exists s'. split; [exact Hrun|]. split; [exact Hidle'|]. split; [exact Hm|]. congruence.
Qed.

Lemma session_ends_listening (ts : list transaction) :
  forall s,
    idle s -> txBuffDataSize s = 0 -> Forall fits ts ->
    exists s',
      run (session ts) s = Some s' /\ idle s' /\ txBuffDataSize s' = 0.
Proof.
  induction ts as [|t ts IH]; intros s Hidle Htn Hts.
  - exists s. auto.
  - apply Forall_cons_1 in Hts as [Ht Hts].
    destruct (transaction_ends_listening t s Hidle Htn Ht) as (s1 & Hrun1 & Hidle1 & _ & Htn1).
    destruct (IH s1 Hidle1 Htn1 Hts) as (s' & Hrun & Hidle' & Htn').
    exists s'. unfold session. simpl. rewrite run_app, Hrun1, Some_bind. auto.
Qed.

Lemma register_only_keeps_voltage (t : transaction) (s : state) :
  idle s -> register_only t ->
  exists s', run (events t) s = Some s' /\ idle s' /\ fakeVoltage s' = fakeVoltage s.
Proof.
  intros Hidle Ht. destruct t as [|bytes]; simpl in *.
  - destruct (read_transaction_run s Hidle) as (s' & Hrun & Hidle' & _ & _ & _ & Hv & _).
    exists s'. auto.
  - destruct Ht as [Hbytes Hlen].
    destruct (write_transaction_idle bytes s Hidle Hbytes) as (s' & Hrun & Hidle' & _ & _ & _ & _ & _ & Hv).
    { change (Z.to_nat BUFFER_SIZE) with 5%nat. lia. }
    exists s'. split; [exact Hrun|]. split; [exact Hidle'|].
    destruct bytes as [|b [|b' bytes]]; simpl in Hlen; try lia; exact Hv.
Qed.

Lemma session_keeps_voltage (ts : list transaction) :
  forall s,
    idle s -> Forall register_only ts ->
    exists s', run (session ts) s = Some s' /\ idle s' /\ fakeVoltage s' = fakeVoltage s.
Proof.
  induction ts as [|t ts IH]; intros s Hidle Hts.
  - exists s. auto.
  - apply Forall_cons_1 in Hts as [Ht Hts].
    destruct (register_only_keeps_voltage t s Hidle Ht) as (s1 & Hrun1 & Hidle1 & Hv1).
    destruct (IH s1 Hidle1 Hts) as (s' & Hrun & Hidle' & Hv).
    exists s'. unfold session. simpl. rewrite run_app, Hrun1, Some_bind.
    split; [exact Hrun|]. split; [exact Hidle'|]. congruence.
Qed.

(** A GET transaction, started between transactions, answers with the
    response built for the register it names. *)
Lemma GET_run (reg : Z) (s : state) :
  idle s -> is_uint8 reg ->
  exists s',
    run (GET reg) s = Some s' /\
    idle s' /\
    fakeVoltage s' = fakeVoltage s /\
    last_response s' = Some (spec_build_response reg (fakeVoltage s)).
Proof.
  intros Hidle Hreg.
  destruct (write_transaction_idle [reg] s Hidle) as (s1 & Hrun1 & Hidle1 & _ & _ & _ & _ & Hr1 & Hv1).
  { apply Forall_cons; [exact Hreg | apply Forall_nil]. }
  { change (Z.to_nat BUFFER_SIZE) with 5%nat. simpl. lia. }
  destruct (read_transaction_run s1 Hidle1) as (s' & Hrun & Hidle' & _ & _ & _ & Hv & _ & Hresp).
  exists s'. unfold GET. rewrite run_app, Hrun1, Some_bind.
  split; [exact Hrun|]. split; [exact Hidle'|]. split; [congruence|].
  unfold last_response. rewrite Hresp, last_snoc, Hr1, Hv1. reflexivity.
Qed.

(** The end-to-end scenario of spec section 8. *)
Example scenario_spec_8 :
  (s ← run (GET 0x08 ++ SET 0x09 1000 ++ GET 0x08) init_state;
   Some (responses s, fakeVoltage s, requestedReg s))
  = Some ([[0x0D; 0xD6]; [0x03; 0xE8]], 1000, 0).
Proof. reflexivity. Qed.

(** ** The claims *)

(** The receive-complete callback has no bound check: it counts every byte
    and, while the mode is receiving, asks for the next one at the new
    count, whatever the count is. *)
Lemma rx_complete_unbounded (s : state) :
  slaveMode s = MODE_RECEIVING ->
  rxBuffDataSize (HAL_I2C_SlaveRxCpltCallback s) = uint8 (rxBuffDataSize s + 1) /\
  hal_rx (HAL_I2C_SlaveRxCpltCallback s) = Some (uint8 (rxBuffDataSize s + 1)).
Proof.
  intros Hmode. destruct s as [m rx n tx tn r v p o c]. simpl in Hmode. subst m.
  unfold_stmt. simpl. split; reflexivity.
Qed.

(** C1: a write of six bytes after initialisation is not rejected.  After
    the fifth byte the fill count is 5 and the callback has asked for one
    more byte at [rxBuff + 5]; the sixth byte is stored there, outside the
    array, and the fill count becomes 6. *)
Theorem C1_sixth_byte_is_stored_out_of_bounds :
  (s ← run (AddressMatched I2C_DIRECTION_TRANSMIT :: (ByteReceived <$> [1; 2; 3; 4; 5]))
         init_state;
   Some (rxBuffDataSize s, hal_rx s, list.last (hal_calls s)))
  = Some (5, Some 5, Some (BeginReceive 5 1 I2C_NEXT_FRAME))
  /\
  (s ← run (AddressMatched I2C_DIRECTION_TRANSMIT :: (ByteReceived <$> [1; 2; 3; 4; 5; 6]))
         init_state;
   Some (rxBuffDataSize s, rxBuff s, overrun s, hal_rx s))
  = Some (6, [1; 2; 3; 4; 5], [(5, 6)], Some 6).
Proof. split; reflexivity. Qed.

(** C2: a SET followed by a GET does not return the value when a write was
    cut short by a bus fault before.  After the fault left the byte 0x42
    in the buffer, SET(0x09, 1000) is appended behind it, the voltage
    becomes 0x0903 and the GET of register 0x08 answers 0x09, 0x03 instead
    of 0x03, 0xE8. *)
Theorem C2_fault_before_set_breaks_roundtrip :
  (s ← run (aborted_write [0x42] ++ SET SET_VOLTAGE_REG 1000 ++ GET GET_VOLTAGE_REG)
         init_state;
   Some (last_response s, fakeVoltage s))
  = Some (Some [0x09; 0x03], 0x0903).
Proof. reflexivity. Qed.

(** X14: from any state between transactions (inbound buffer empty and
    cleared), for every 16-bit value [v], a SET of register 0x09 carrying
    [v] followed by a GET of register 0x08 returns the two bytes [v >> 8]
    and [v & 0xFF]. *)
Theorem X14_set_then_get_roundtrip (s : state) (v : Z) :
  idle s ->
  is_uint16 v ->
  exists s',
    run (SET SET_VOLTAGE_REG v ++ GET GET_VOLTAGE_REG) s = Some s' /\
    last_response s' = Some [Z.shiftr v 8; Z.land v 0xFF].
Proof.
  intros Hidle Hv.
  destruct (split_big_endian v Hv) as (Hhi & Hlo & Hsplit).
  destruct (write_transaction_idle [SET_VOLTAGE_REG; Z.shiftr v 8; Z.land v 0xFF] s Hidle)
    as (s1 & Hrun1 & Hidle1 & _ & _ & _ & _ & _ & Hv1).
  { repeat (apply Forall_cons; [first [assumption | unfold is_uint8, SET_VOLTAGE_REG; lia]|]).
    apply Forall_nil. }
  { change (Z.to_nat BUFFER_SIZE) with 5%nat. simpl. lia. }
  destruct (GET_run GET_VOLTAGE_REG s1 Hidle1) as (s' & Hrun & _ & _ & Hresp).
  { unfold is_uint8, GET_VOLTAGE_REG. lia. }
  exists s'. unfold SET. rewrite run_app, Hrun1, Some_bind.
  split; [exact Hrun|].
  rewrite Hresp, Hv1. unfold big_endian. simpl. rewrite Hsplit.
  unfold spec_build_response. simpl. rewrite shiftr_8, land_255. reflexivity.
Qed.

(** X14 at the initial state with [v = 1000]. *)
Lemma X14_witness :
  idle init_state /\ is_uint16 1000 /\
  exists s',
    run (SET SET_VOLTAGE_REG 1000 ++ GET GET_VOLTAGE_REG) init_state = Some s' /\
    last_response s' = Some [Z.shiftr 1000 8; Z.land 1000 0xFF].
Proof.
  assert (H1000 : is_uint16 1000) by (unfold is_uint16; lia).
  split; [exact idle_init|]. split; [exact H1000|].
  exact (X14_set_then_get_roundtrip init_state 1000 idle_init H1000).
Defined.

(** A bus fault after the first byte of a write leaves the mode at
    Receiving and the inbound fill count at 1. *)
Lemma fault_keeps_mode_and_count :
  (s ← run [AddressMatched I2C_DIRECTION_TRANSMIT; ByteReceived 0x08; Error] init_state;
   Some (slaveMode s, rxBuffDataSize s, rxBuff s))
  = Some (MODE_RECEIVING, 1, [0x08; 0; 0; 0; 0]).
Proof. reflexivity. Qed.

(** A read that ends with a stop condition before its transmit completed
    leaves the outbound fill count at 2. *)
Lemma stop_before_transfer_complete :
  (s ← run [AddressMatched I2C_DIRECTION_RECEIVE; ListenComplete] init_state;
   Some (slaveMode s, rxBuffDataSize s, txBuffDataSize s))
  = Some (MODE_LISTENING, 0, 2).
Proof. reflexivity. Qed.

(** C3 fails as stated: the run AddressMatched(read), ListenComplete from
    the initial state ends with ListenComplete and an outbound fill count
    of 2. *)
Lemma C3_counterexample : ~ C3_as_stated.
Proof.
  intros H.
  destruct (H [AddressMatched I2C_DIRECTION_RECEIVE] ListenComplete _
              (or_introl eq_refl) eq_refl) as (_ & _ & Htx).
  vm_compute in Htx. discriminate Htx.
Qed.

(** C3, amended: in every state, ListenComplete sets the mode to Listening
    and the inbound fill count to zero and leaves the outbound fill count
    as it was; TransferComplete sets the outbound fill count to zero; so
    TransferComplete followed by ListenComplete ends with the mode
    Listening and both fill counts zero. *)
Theorem C3_transaction_end (s : state) :
  (exists s',
     bus_step ListenComplete s = Some s' /\
     slaveMode s' = MODE_LISTENING /\
     rxBuffDataSize s' = 0 /\
     txBuffDataSize s' = txBuffDataSize s) /\
  (exists s',
     bus_step TransferComplete s = Some s' /\
     txBuffDataSize s' = 0) /\
  (exists s',
     run [TransferComplete; ListenComplete] s = Some s' /\
     slaveMode s' = MODE_LISTENING /\
     rxBuffDataSize s' = 0 /\
     txBuffDataSize s' = 0).
Proof.
  split; [|split].
  - destruct (listen_complete s) as (s' & Hstep & Hm & Hn & _ & _ & _ & _ & _ & Htn & _).
    exists s'. auto.
  - destruct (transfer_complete s) as (s' & Hstep & Htn & _).
    exists s'. auto.
  - destruct (transfer_complete s) as (s1 & Hstep1 & Htn1 & _).
    destruct (listen_complete s1) as (s' & Hstep & Hm & Hn & _ & _ & _ & _ & _ & Htn & _).
    exists s'. rewrite run_cons, Hstep1, Some_bind, run_single.
    split; [exact Hstep|]. split; [exact Hm|]. split; [exact Hn|]. congruence.
Qed.

(** X18: a read or write transaction that fits the buffer, started between
    transactions (inbound buffer empty and cleared) with an outbound fill
    count of zero, ends between transactions with the mode Listening and
    both fill counts zero. *)
Theorem X18_fitting_transaction_ends_listening (t : transaction) (s : state) :
  idle s ->
  txBuffDataSize s = 0 ->
  fits t ->
  exists s',
    run (events t) s = Some s' /\
    slaveMode s' = MODE_LISTENING /\
    rxBuffDataSize s' = 0 /\
    txBuffDataSize s' = 0 /\
    idle s'.
Proof.
  intros Hidle Htn Ht.
  destruct (transaction_ends_listening t s Hidle Htn Ht) as (s' & Hrun & Hidle' & Hm & Htn').
  exists s'. split; [exact Hrun|]. split; [exact Hm|].
  split; [exact (idle_count s' Hidle')|]. split; [exact Htn' | exact Hidle'].
Qed.

(** X18 after initialisation, for the write [0x09; 0x03; 0xE8]. *)
Lemma X18_witness :
  exists s',
    run (events (Write [0x09; 0x03; 0xE8])) init_state = Some s' /\
    slaveMode s' = MODE_LISTENING /\
    rxBuffDataSize s' = 0 /\
    txBuffDataSize s' = 0 /\
    idle s'.
Proof.
  apply (X18_fitting_transaction_ends_listening (Write [0x09; 0x03; 0xE8]) init_state).
  - exact idle_init.
  - reflexivity.
  - split; [|change (Z.to_nat BUFFER_SIZE) with 5%nat; simpl; lia].
    repeat (apply Forall_cons; [unfold is_uint8; lia|]). apply Forall_nil.
Defined.

(** A write of no byte at all, after register 0x08 was selected, leaves
    0x08 selected although the inbound buffer starts with 0. *)
Lemma C4_empty_write_keeps_register :
  (s ← run (write_transaction [0x08] ++ [AddressMatched I2C_DIRECTION_TRANSMIT]) init_state;
   s' ← bus_step ListenComplete s;
   Some (rxBuffDataSize s, rd (rxBuff s) 0, requestedReg s, requestedReg s'))
  = Some (0, 0, 0x08, 0x08).
Proof. reflexivity. Qed.

(** C4 fails as stated: after a write of [0x08] and an address match for a
    second write, ListenComplete with no byte accumulated leaves 0x08
    requested, while the first byte of the inbound buffer is 0. *)
Lemma C4_counterexample : ~ C4_as_stated.
Proof.
  intros H.
  destruct (H (write_transaction [0x08] ++ [AddressMatched I2C_DIRECTION_TRANSMIT]) _ _
              eq_refl ltac:(simpl; lia) eq_refl) as [Hreg _].
  discriminate Hreg.
Qed.

(** C4, amended: on ListenComplete, one accumulated byte is a pure
    register select (the requested register becomes that byte, the voltage
    is unchanged); no accumulated byte changes neither the requested
    register nor the voltage; two or more bytes select the register and
    store the pair behind it as the voltage. *)
Theorem C4_listen_complete_by_count (s : state) :
  (rxBuffDataSize s = 0 ->
   requestedReg (HAL_I2C_ListenCpltCallback s) = requestedReg s /\
   fakeVoltage (HAL_I2C_ListenCpltCallback s) = fakeVoltage s) /\
  (rxBuffDataSize s = 1 ->
   requestedReg (HAL_I2C_ListenCpltCallback s) = rd (rxBuff s) 0 /\
   fakeVoltage (HAL_I2C_ListenCpltCallback s) = fakeVoltage s) /\
  (rxBuffDataSize s > 1 ->
   requestedReg (HAL_I2C_ListenCpltCallback s) = rd (rxBuff s) 0 /\
   fakeVoltage (HAL_I2C_ListenCpltCallback s) =
     uint16 (Z.lor (Z.shiftl (rd (rxBuff s) 1) 8) (Z.land (rd (rxBuff s) 2) 0xFF))).
Proof.
  destruct s as [m rx n tx tn r v p o c]. unfold_stmt. simpl.
  split; [|split]; intros Hn.
  - subst n. simpl. split; reflexivity.
  - subst n. simpl. split; reflexivity.
  - rewrite (bool_decide_false (n = 1)) by lia.
    rewrite (bool_decide_true (n > 1)) by exact Hn.
    simpl. split; reflexivity.
Qed.

(** C4 at a state holding the single byte 0x08. *)
Lemma C4_witness :
  requestedReg (HAL_I2C_ListenCpltCallback (set_rxBuffDataSize 1 (set_rxBuff [0x08; 0; 0; 0; 0] init_state))) = 0x08 /\
  fakeVoltage (HAL_I2C_ListenCpltCallback (set_rxBuffDataSize 1 (set_rxBuff [0x08; 0; 0; 0; 0] init_state))) = 3542.
Proof.
  exact (proj1 (proj2 (C4_listen_complete_by_count
                         (set_rxBuffDataSize 1 (set_rxBuff [0x08; 0; 0; 0; 0] init_state))))
               eq_refl).
Defined.

(** C5: an address match with direction controller-will-read sets the mode
    to Transmitting, loads the two bytes built from the current requested
    register into the outbound buffer, asks the bus port to transmit
    exactly those two bytes as the last frame, and leaves the requested
    register at 0. *)
Theorem C5_address_match_for_read (s : state) :
  wf s ->
  exists s',
    bus_step (AddressMatched I2C_DIRECTION_RECEIVE) s = Some s' /\
    slaveMode s' = MODE_TRANSMITTING /\
    txBuffDataSize s' = 2 /\
    take 2 (txBuff s') = spec_build_response (requestedReg s) (fakeVoltage s) /\
    hal_calls s' =
      hal_calls s ++ [BeginTransmit (txBuff s') 2 I2C_LAST_FRAME] /\
    last_response s' = Some (spec_build_response (requestedReg s) (fakeVoltage s)) /\
    requestedReg s' = 0.
Proof.
  intros Hwf.
  destruct (address_matched_read s Hwf)
    as (s' & Hstep & Hm & Htn & Htx & Hcalls & Hr & _ & _ & _ & _ & Hresp).
  exists s'. do 5 (split; [assumption|]). split; [|exact Hr].
  unfold last_response. rewrite Hresp. apply last_snoc.
Qed.

(** C5 at the initial state. *)
Lemma C5_witness :
  wf init_state /\
  exists s',
    bus_step (AddressMatched I2C_DIRECTION_RECEIVE) init_state = Some s' /\
    slaveMode s' = MODE_TRANSMITTING /\
    txBuffDataSize s' = 2 /\
    take 2 (txBuff s') = spec_build_response (requestedReg init_state) (fakeVoltage init_state) /\
    hal_calls s' =
      hal_calls init_state ++ [BeginTransmit (txBuff s') 2 I2C_LAST_FRAME] /\
    last_response s' =
      Some (spec_build_response (requestedReg init_state) (fakeVoltage init_state)) /\
    requestedReg s' = 0.
Proof.
  split; [exact wf_init|].
  exact (C5_address_match_for_read init_state wf_init).
Defined.

(** C6: a SET write is not applied as sent when a write was cut short by a
    bus fault before.  After the fault left the byte 0x42 in the buffer,
    the write 0x09, 0x03, 0xE8 makes 0x42 the requested register and
    0x0903 the voltage, instead of 0x09 and 0x03E8. *)
Theorem C6_fault_before_set_shifts_payload :
  (s ← run (aborted_write [0x42] ++ write_transaction [SET_VOLTAGE_REG; 0x03; 0xE8])
         init_state;
   Some (requestedReg s, fakeVoltage s))
  = Some (0x42, 0x0903).
Proof. reflexivity. Qed.

(** X15: from any state between transactions (inbound buffer empty and
    cleared), a write transaction of two to [BUFFER_SIZE] bytes whose
    first byte is the SET register 0x09 makes the voltage the big-endian
    value of its second and third bytes (a missing third byte counts as 0)
    and makes 0x09 the requested register. *)
Theorem X15_set_register_write (s : state) (hi : Z) (rest : list Z) :
  idle s ->
  is_uint8 hi ->
  Forall is_uint8 rest ->
  (length (SET_VOLTAGE_REG :: hi :: rest) <= Z.to_nat BUFFER_SIZE)%nat ->
  exists s',
    run (write_transaction (SET_VOLTAGE_REG :: hi :: rest)) s = Some s' /\
    fakeVoltage s' = big_endian hi (default 0 (head rest)) /\
    requestedReg s' = SET_VOLTAGE_REG.
Proof.
  intros Hidle Hhi Hrest Hfit.
  destruct (write_transaction_idle (SET_VOLTAGE_REG :: hi :: rest) s Hidle)
    as (s' & Hrun & _ & _ & _ & _ & _ & Hr & Hv).
  { apply Forall_cons; [unfold is_uint8, SET_VOLTAGE_REG; lia|].
    apply Forall_cons; assumption. }
  { exact Hfit. }
  exists s'. auto.
Qed.

(** X15 at the initial state, for the write [0x09; 0x03; 0xE8]. *)
Lemma X15_witness :
  exists s',
    run (write_transaction (SET_VOLTAGE_REG :: 0x03 :: [0xE8])) init_state = Some s' /\
    fakeVoltage s' = big_endian 0x03 (default 0 (head [0xE8])) /\
    requestedReg s' = SET_VOLTAGE_REG.
Proof.
  apply (X15_set_register_write init_state 0x03 [0xE8]).
  - exact idle_init.
  - unfold is_uint8. lia.
  - apply Forall_cons; [unfold is_uint8; lia | apply Forall_nil].
  - change (Z.to_nat BUFFER_SIZE) with 5%nat. simpl. lia.
Defined.

(** C7: whatever the voltage, a read transaction answers 0xFF, 0xFF when
    the requested register is not the GET register 0x08. *)
Theorem C7_unknown_register_reads_sentinel (s : state) :
  wf s ->
  requestedReg s <> GET_VOLTAGE_REG ->
  exists s',
    run read_transaction s = Some s' /\
    last_response s' = Some [0xFF; 0xFF].
Proof.
  intros Hwf Hreg.
  destruct (address_matched_read s Hwf)
    as (s1 & Hstep1 & _ & _ & _ & _ & _ & _ & _ & _ & _ & Hresp1).
  destruct (transfer_complete s1) as (s2 & Hstep2 & _ & _ & _ & _ & _ & _ & _ & _ & Hc2).
  destruct (listen_complete s2)
    as (s3 & Hstep3 & _ & _ & _ & _ & _ & _ & _ & _ & _ & Hresp3 & _).
  exists s3. split.
  { unfold read_transaction.
    rewrite run_cons, Hstep1, Some_bind, run_cons, Hstep2, Some_bind, run_single.
    exact Hstep3. }
  unfold last_response. rewrite Hresp3. unfold responses. rewrite Hc2.
  fold (responses s1). rewrite Hresp1, last_snoc.
  unfold spec_build_response. destruct (decide (requestedReg s = GET_VOLTAGE_REG)); [contradiction|].
  reflexivity.
Qed.

(** C7 at the initial state, where the requested register is 0. *)
Lemma C7_witness :
  exists s',
    run read_transaction init_state = Some s' /\
    last_response s' = Some [0xFF; 0xFF].
Proof.
  apply (C7_unknown_register_reads_sentinel init_state).
  - exact wf_init.
  - simpl. unfold GET_VOLTAGE_REG. lia.
Defined.

(** C8: a one-byte write is not a pure register selection when a write was
    cut short by a bus fault before.  After the fault left the byte 5 in
    the buffer, the write of the single byte 0x08 makes 5 the requested
    register and changes the voltage from 3542 to 0x0800. *)
Theorem C8_fault_before_register_write :
  (s ← run (aborted_write [5] ++ write_transaction [GET_VOLTAGE_REG]) init_state;
   Some (requestedReg s, fakeVoltage init_state, fakeVoltage s))
  = Some (5, 3542, 0x0800).
Proof. reflexivity. Qed.

(** X16: from any state between transactions (inbound buffer empty and
    cleared), a write transaction of exactly one byte makes that byte the
    requested register and leaves the voltage as it was. *)
Theorem X16_register_only_write (s : state) (b : Z) :
  idle s ->
  is_uint8 b ->
  exists s',
    run (write_transaction [b]) s = Some s' /\
    requestedReg s' = b /\
    fakeVoltage s' = fakeVoltage s.
Proof.
  intros Hidle Hb.
  destruct (write_transaction_idle [b] s Hidle)
    as (s' & Hrun & _ & _ & _ & _ & _ & Hr & Hv).
  { apply Forall_cons; [exact Hb | apply Forall_nil]. }
  { simpl. change (Z.to_nat BUFFER_SIZE) with 5%nat. lia. }
  exists s'. auto.
Qed.

(** X16 at the initial state, for the write [0x08]. *)
Lemma X16_witness :
  exists s',
    run (write_transaction [0x08]) init_state = Some s' /\
    requestedReg s' = 0x08 /\
    fakeVoltage s' = fakeVoltage init_state.
Proof.
  apply (X16_register_only_write init_state 0x08).
  - exact idle_init.
  - unfold is_uint8. lia.
Defined.

(** C9: a GET after initialisation does not return the default voltage
    when a write was cut short by a bus fault before, although no SET took
    place.  After the fault left the byte 1 in the buffer, the register
    byte of GET(0x08) is taken as payload: the voltage becomes 0x0800 and
    the read answers 0xFF, 0xFF. *)
Theorem C9_fault_before_get_loses_default :
  (s ← run (aborted_write [1] ++ GET GET_VOLTAGE_REG) init_state;
   Some (last_response s, fakeVoltage init_state, fakeVoltage s))
  = Some (Some [0xFF; 0xFF], 3542, 0x0800).
Proof. reflexivity. Qed.

(** After initialisation, and after any number of complete transactions
    that carry no payload, a GET of register 0x08 returns the default
    voltage 3542 as the bytes 0x0D, 0xD6. *)
Theorem get_returns_default_after_session (ts : list transaction) :
  Forall register_only ts ->
  exists s',
    run (session ts ++ GET GET_VOLTAGE_REG) init_state = Some s' /\
    last_response s' = Some [0x0D; 0xD6].
Proof.
  intros Hts.
  destruct (session_keeps_voltage ts init_state idle_init Hts) as (s1 & Hrun1 & Hidle1 & Hv1).
  destruct (GET_run GET_VOLTAGE_REG s1 Hidle1) as (s' & Hrun & _ & _ & Hresp).
  { unfold is_uint8, GET_VOLTAGE_REG. lia. }
  exists s'. rewrite run_app, Hrun1, Some_bind. split; [exact Hrun|].
  rewrite Hresp, Hv1. reflexivity.
Qed.

(** C10: a write of two bytes does not store its second byte as the high
    byte with low byte 0 when a write was cut short by a bus fault before.
    After the fault left the byte 0x42 in the buffer, the write 0x10, 0x12
    makes the voltage 0x1012, whose low byte is 0x12, and makes 0x42 the
    requested register. *)
Theorem C10_fault_before_two_byte_write :
  (s ← run (aborted_write [0x42] ++ write_transaction [0x10; 0x12]) init_state;
   Some (requestedReg s, fakeVoltage s, Z.land (fakeVoltage s) 0xFF))
  = Some (0x42, 0x1012, 0x12).
Proof. reflexivity. Qed.

(** X17: from any state between transactions (inbound buffer empty and
    cleared), a write transaction of two to [BUFFER_SIZE] bytes makes the
    voltage the big-endian value of its second and third bytes whatever
    its first byte is; with exactly two bytes the third is the zero left
    in the cleared buffer, so the low byte of the voltage is 0. *)
Theorem X17_payload_write_any_register (s : state) (reg hi : Z) (rest : list Z) :
  idle s ->
  is_uint8 reg ->
  is_uint8 hi ->
  Forall is_uint8 rest ->
  (length (reg :: hi :: rest) <= Z.to_nat BUFFER_SIZE)%nat ->
  (exists s',
     run (write_transaction (reg :: hi :: rest)) s = Some s' /\
     fakeVoltage s' = big_endian hi (default 0 (head rest))) /\
  (exists s',
     run (write_transaction [reg; hi]) s = Some s' /\
     fakeVoltage s' = big_endian hi 0 /\
     Z.land (fakeVoltage s') 0xFF = 0).
Proof.
  intros Hidle Hreg Hhi Hrest Hfit. split.
  - destruct (write_transaction_idle (reg :: hi :: rest) s Hidle)
      as (s' & Hrun & _ & _ & _ & _ & _ & _ & Hv).
    { repeat (apply Forall_cons; [assumption|]). exact Hrest. }
    { exact Hfit. }
    exists s'. auto.
  - destruct (write_transaction_idle [reg; hi] s Hidle)
      as (s' & Hrun & _ & _ & _ & _ & _ & _ & Hv).
    { repeat (apply Forall_cons; [assumption|]). apply Forall_nil. }
    { simpl. change (Z.to_nat BUFFER_SIZE) with 5%nat. lia. }
    exists s'. split; [exact Hrun|]. simpl in Hv. split; [exact Hv|].
    rewrite Hv, land_255. unfold big_endian.
    rewrite Z.add_0_r. apply Z.mod_mul. lia.
Qed.

(** X17 at the initial state, for the unknown register 0x42. *)
Lemma X17_witness :
  (exists s',
     run (write_transaction (0x42 :: 0x12 :: [0x34])) init_state = Some s' /\
     fakeVoltage s' = big_endian 0x12 (default 0 (head [0x34]))) /\
  (exists s',
     run (write_transaction [0x42; 0x12]) init_state = Some s' /\
     fakeVoltage s' = big_endian 0x12 0 /\
     Z.land (fakeVoltage s') 0xFF = 0).
Proof.
  apply (X17_payload_write_any_register init_state 0x42 0x12 [0x34]).
  - exact idle_init.
  - unfold is_uint8. lia.
  - unfold is_uint8. lia.
  - apply Forall_cons; [unfold is_uint8; lia | apply Forall_nil].
  - change (Z.to_nat BUFFER_SIZE) with 5%nat. simpl. lia.
Defined.

(** * Further properties of the callbacks *)

(** ** Single events *)

Lemma responses_snoc (cs : list bus_command) (c : bus_command) :
  omap sent (cs ++ [c]) = omap sent cs ++ option_list (sent c).
Proof. rewrite omap_app. simpl. destruct (sent c); reflexivity. Qed.

(** An address match with any direction but controller-will-read. *)
Lemma address_matched_other (d : Z) (s : state) :
  d <> I2C_DIRECTION_RECEIVE ->
  exists s',
    bus_step (AddressMatched d) s = Some s' /\
    slaveMode s' = MODE_RECEIVING /\
    hal_rx s' = Some (rxBuffDataSize s) /\
    hal_calls s' = hal_calls s ++ [BeginReceive (rxBuffDataSize s) 1 I2C_NEXT_FRAME] /\
    rxBuffDataSize s' = rxBuffDataSize s /\
    rxBuff s' = rxBuff s /\
    rx_frame s s'.
Proof.
  intros Hd. destruct s as [m rx n tx tn r v p o c].
  eexists. split; [reflexivity|].
  unfold_stmt. destruct (decide (d = I2C_DIRECTION_RECEIVE)); [contradiction|].
  simpl. repeat split.
  unfold responses. simpl. rewrite responses_snoc. apply app_nil_r.
Qed.

(** A bus fault: the pending transfer is gone, listening is re-armed, and
    no variable of the program changes. *)
Lemma error_step (s : state) :
  exists s',
    bus_step Error s = Some s' /\
    slaveMode s' = slaveMode s /\
    hal_rx s' = None /\
    hal_calls s' = hal_calls s ++ [RearmListen] /\
    rxBuffDataSize s' = rxBuffDataSize s /\
    rxBuff s' = rxBuff s /\
    rx_frame s s'.
Proof.
  destruct s as [m rx n tx tn r v p o c].
  eexists. split; [reflexivity|].
  unfold_stmt. simpl. repeat split.
  unfold responses. simpl. rewrite responses_snoc. apply app_nil_r.
Qed.

(** One byte that fits, with the command it triggers. *)
Lemma byte_received_command (b : Z) (k : nat) (s : state) :
  slaveMode s = MODE_RECEIVING ->
  hal_rx s = Some (Z.of_nat k) ->
  rxBuffDataSize s = Z.of_nat k ->
  (k < Z.to_nat BUFFER_SIZE)%nat ->
  exists s',
    bus_step (ByteReceived b) s = Some s' /\
    hal_calls s' = hal_calls s ++ [BeginReceive (Z.of_nat (S k)) 1 I2C_NEXT_FRAME].
Proof.
  intros Hmode Hrx Hcount Hk. change (Z.to_nat BUFFER_SIZE) with 5%nat in Hk.
  destruct s as [m rx n tx tn r v p o c]. simpl in *. subst m p n.
  assert (Hwrap : uint8 (Z.of_nat k + 1) = Z.of_nat (S k)).
  { replace (Z.of_nat (S k)) with (Z.of_nat k + 1) by lia.
    apply uint8_id. unfold is_uint8. lia. }
  eexists. split; [reflexivity|].
  unfold_stmt. simpl.
  rewrite (bool_decide_true (0 <= Z.of_nat k < BUFFER_SIZE)) by (unfold BUFFER_SIZE; lia).
  simpl. rewrite Hwrap. reflexivity.
Qed.

(** The commands of the receive loop: one request per byte, at the next
    offset. *)
Lemma run_receive_commands (bs : list Z) :
  forall (k : nat) (s : state),
    slaveMode s = MODE_RECEIVING ->
    hal_rx s = Some (Z.of_nat k) ->
    rxBuffDataSize s = Z.of_nat k ->
    (k + length bs <= Z.to_nat BUFFER_SIZE)%nat ->
    exists s',
      run (ByteReceived <$> bs) s = Some s' /\
      hal_calls s' =
        hal_calls s ++
        ((fun i => BeginReceive (Z.of_nat i) 1 I2C_NEXT_FRAME) <$> List.seq (S k) (length bs)).
Proof.
  induction bs as [|b bs IH]; intros k s Hmode Hrx Hcount Hfit.
  - exists s. simpl. rewrite app_nil_r. auto.
  - simpl in Hfit.
    destruct (byte_received_in_bounds b k s Hmode Hrx Hcount ltac:(lia))
      as (s1 & Hstep & Hmode1 & Hrx1 & Hcount1 & _ & _).
    destruct (byte_received_command b k s Hmode Hrx Hcount ltac:(lia))
      as (s1' & Hstep' & Hcalls1).
    rewrite Hstep in Hstep'. injection Hstep' as <-.
    destruct (IH (S k) s1 Hmode1 Hrx1 Hcount1 ltac:(lia)) as (s' & Hrun & Hcalls).
    exists s'. rewrite fmap_cons, run_cons, Hstep, Some_bind.
    split; [exact Hrun|].
    rewrite Hcalls, Hcalls1, <- app_assoc. reflexivity.
Qed.

(** X1: every run keeps the state well formed: both buffers keep their five
    bytes, every byte, fill count and the requested register stay within
    [uint8_t], and the voltage within [uint16_t]. *)
Theorem X1_runs_keep_state_well_formed (evs : list event) (s s' : state) :
  wf s ->
  run evs s = Some s' ->
  wf s'.
Proof. intros Hwf Hrun. eapply wf_run; eassumption. Qed.

(** X1 after initialisation, for a SET of 1000 followed by a GET. *)
Lemma X1_witness :
  exists s',
    run (SET SET_VOLTAGE_REG 1000 ++ GET GET_VOLTAGE_REG) init_state = Some s' /\ wf s'.
Proof.
  eexists. split; [vm_compute; reflexivity|].
  apply (X1_runs_keep_state_well_formed
           (SET SET_VOLTAGE_REG 1000 ++ GET GET_VOLTAGE_REG) init_state).
  - exact wf_init.
  - vm_compute. reflexivity.
Defined.

(** X2: an address match with any direction other than controller-will-read
    sets the mode to Receiving and requests exactly one byte, not the final
    frame, at the current fill count (not at the start of the buffer); the
    buffers, the fill counts, the requested register and the voltage are
    unchanged. *)
Theorem X2_address_match_for_write (d : Z) (s : state) :
  d <> I2C_DIRECTION_RECEIVE ->
  exists s',
    bus_step (AddressMatched d) s = Some s' /\
    slaveMode s' = MODE_RECEIVING /\
    hal_calls s' = hal_calls s ++ [BeginReceive (rxBuffDataSize s) 1 I2C_NEXT_FRAME] /\
    rxBuffDataSize s' = rxBuffDataSize s /\
    rxBuff s' = rxBuff s /\
    txBuffDataSize s' = txBuffDataSize s /\
    txBuff s' = txBuff s /\
    requestedReg s' = requestedReg s /\
    fakeVoltage s' = fakeVoltage s.
Proof.
  intros Hd.
  destruct (address_matched_other d s Hd) as (s' & Hstep & Hm & _ & Hc & Hn & Hb & []).
  exists s'. repeat split; assumption.
Qed.

(** X2 at the initial state, for the direction controller-will-write. *)
Lemma X2_witness :
  exists s',
    bus_step (AddressMatched I2C_DIRECTION_TRANSMIT) init_state = Some s' /\
    slaveMode s' = MODE_RECEIVING /\
    hal_calls s' =
      hal_calls init_state ++ [BeginReceive (rxBuffDataSize init_state) 1 I2C_NEXT_FRAME] /\
    rxBuffDataSize s' = rxBuffDataSize init_state /\
    rxBuff s' = rxBuff init_state /\
    txBuffDataSize s' = txBuffDataSize init_state /\
    txBuff s' = txBuff init_state /\
    requestedReg s' = requestedReg init_state /\
    fakeVoltage s' = fakeVoltage init_state.
Proof.
  apply (X2_address_match_for_write I2C_DIRECTION_TRANSMIT init_state).
  unfold I2C_DIRECTION_TRANSMIT, I2C_DIRECTION_RECEIVE. lia.
Defined.

(** ** Receiving *)

Lemma inbound_zeros (bytes : list Z) :
  Forall is_uint8 bytes ->
  inbound bytes (replicate (Z.to_nat BUFFER_SIZE) 0)
  = bytes ++ replicate (Z.to_nat BUFFER_SIZE - length bytes) 0.
Proof.
  intros Hbytes. unfold inbound. rewrite drop_replicate. f_equal.
  induction Hbytes as [|b bs Hb _ IH]; [reflexivity|].
  rewrite fmap_cons, IH, (uint8_id b Hb). reflexivity.
Qed.

(** X3: the bytes of a write that fits the buffer, received on an empty
    buffer, are stored in order from slot 0 on and counted; nothing is
    stored outside the buffer; one receive of one byte is requested per
    byte plus one more, at the offsets 0 to the number of bytes; and
    neither the requested register nor the voltage changes before the stop
    condition. *)
Theorem X3_write_fills_buffer_in_order (bytes : list Z) (s : state) :
  idle s ->
  Forall is_uint8 bytes ->
  (length bytes <= Z.to_nat BUFFER_SIZE)%nat ->
  exists s',
    run (AddressMatched I2C_DIRECTION_TRANSMIT :: (ByteReceived <$> bytes)) s = Some s' /\
    rxBuffDataSize s' = Z.of_nat (length bytes) /\
    rxBuff s' = bytes ++ replicate (Z.to_nat BUFFER_SIZE - length bytes) 0 /\
    overrun s' = overrun s /\
    hal_calls s' = hal_calls s ++ receive_requests (S (length bytes)) /\
    requestedReg s' = requestedReg s /\
    fakeVoltage s' = fakeVoltage s.
Proof.
  intros [Hwf Hcount Hbuf] Hbytes Hfit.
  assert (Hdir : I2C_DIRECTION_TRANSMIT <> I2C_DIRECTION_RECEIVE)
    by (unfold I2C_DIRECTION_TRANSMIT, I2C_DIRECTION_RECEIVE; lia).
  destruct (address_matched_other _ s Hdir)
    as (s1 & Hstep1 & Hmode1 & Hrx1 & Hcalls1 & Hcount1 & Hbuf1 & Hframe1).
  rewrite Hcount in Hrx1, Hcalls1. rewrite Hcount in Hcount1.
  destruct (run_receive bytes 0 s1 Hmode1 Hrx1 Hcount1)
    as (s2 & Hrun2 & _ & Hcount2 & Hbuf2 & Hframe2).
  { rewrite Hbuf1. exact (wf_rxBuff s Hwf). }
  { exact Hfit. }
  destruct (run_receive_commands bytes 0 s1 Hmode1 Hrx1 Hcount1 Hfit)
    as (s2' & Hrun2' & Hcalls2).
  rewrite Hrun2 in Hrun2'. injection Hrun2' as <-.
  exists s2. rewrite run_cons, Hstep1, Some_bind.
  split; [exact Hrun2|]. split; [exact Hcount2|].
  destruct Hframe1, Hframe2.
  split.
  { rewrite Hbuf2, Hbuf1, Hbuf. simpl take. simpl app.
    apply (inbound_zeros bytes Hbytes). }
  split; [congruence|].
  split; [|split; congruence].
  rewrite Hcalls2, Hcalls1, <- app_assoc. reflexivity.
Qed.

(** X3 at the initial state, for the three bytes of SET(0x09, 1000). *)
Lemma X3_witness :
  exists s',
    run (AddressMatched I2C_DIRECTION_TRANSMIT :: (ByteReceived <$> [0x09; 0x03; 0xE8]))
        init_state = Some s' /\
    rxBuffDataSize s' = Z.of_nat (length [0x09; 0x03; 0xE8]) /\
    rxBuff s' = [0x09; 0x03; 0xE8] ++ replicate (Z.to_nat BUFFER_SIZE - length [0x09; 0x03; 0xE8]) 0 /\
    overrun s' = overrun init_state /\
    hal_calls s' = hal_calls init_state ++ receive_requests (S (length [0x09; 0x03; 0xE8])) /\
    requestedReg s' = requestedReg init_state /\
    fakeVoltage s' = fakeVoltage init_state.
Proof.
  apply (X3_write_fills_buffer_in_order [0x09; 0x03; 0xE8] init_state).
  - exact idle_init.
  - repeat (apply Forall_cons; [unfold is_uint8; lia|]). apply Forall_nil.
  - change (Z.to_nat BUFFER_SIZE) with 5%nat. simpl. lia.
Defined.

(** ** What each event can change *)

Ltac step_cases s e Hstep :=
  destruct s as [m rx n tx tn r v p o c];
  destruct e as [d|b| | |]; simpl in Hstep;
  [ | destruct p as [offset|]; [|discriminate Hstep] | | | ];
  injection Hstep as <-; unfold_stmt; simpl.

Lemma step_keeps_voltage (e : event) (s s' : state) :
  bus_step e s = Some s' ->
  e <> ListenComplete ->
  fakeVoltage s' = fakeVoltage s.
Proof.
  intros Hstep He. step_cases s e Hstep.
  - destruct (decide (d = I2C_DIRECTION_RECEIVE)); simpl; [|reflexivity].
    destruct (bool_decide (r = GET_VOLTAGE_REG)); reflexivity.
  - destruct (bool_decide (0 <= offset < BUFFER_SIZE)); simpl;
      destruct (bool_decide (m = MODE_RECEIVING)); reflexivity.
  - reflexivity.
  - contradiction.
  - reflexivity.
Qed.

Lemma step_keeps_register (e : event) (s s' : state) :
  bus_step e s = Some s' ->
  e <> ListenComplete ->
  is_read_match e = false ->
  requestedReg s' = requestedReg s.
Proof.
  intros Hstep He Hread. step_cases s e Hstep.
  - simpl in Hread. apply bool_decide_eq_false in Hread.
    destruct (decide (d = I2C_DIRECTION_RECEIVE)); [contradiction|]. reflexivity.
  - destruct (bool_decide (0 <= offset < BUFFER_SIZE)); simpl;
      destruct (bool_decide (m = MODE_RECEIVING)); reflexivity.
  - reflexivity.
  - contradiction.
  - reflexivity.
Qed.

Lemma step_rearms (e : event) (s s' : state) :
  bus_step e s = Some s' ->
  length (List.filter is_rearm (hal_calls s'))
  = (length (List.filter is_rearm (hal_calls s)) + if ends_transfer e then 1 else 0)%nat.
Proof.
  intros Hstep. step_cases s e Hstep.
  - destruct (decide (d = I2C_DIRECTION_RECEIVE)); simpl.
    + destruct (bool_decide (r = GET_VOLTAGE_REG)); simpl;
        rewrite List.filter_app, length_app; reflexivity.
    + rewrite List.filter_app, length_app; reflexivity.
  - destruct (bool_decide (0 <= offset < BUFFER_SIZE)); simpl;
      destruct (bool_decide (m = MODE_RECEIVING)); simpl;
      rewrite ?List.filter_app, ?length_app; simpl; lia.
  - lia.
  - destruct (bool_decide (n = 1)); [|destruct (bool_decide (n > 1))]; simpl;
      rewrite List.filter_app, length_app; reflexivity.
  - rewrite List.filter_app, length_app; reflexivity.
Qed.

Lemma two_bytes_response (registerId value : Z) :
  is_uint16 value -> two_bytes (spec_build_response registerId value).
Proof.
  intros Hv. unfold spec_build_response, two_bytes.
  destruct (voltage_bytes value Hv) as [Hhi Hlo].
  destruct (decide (registerId = GET_VOLTAGE_REG)); (split; [reflexivity|]).
  - rewrite <- Hhi, <- Hlo.
    repeat (apply Forall_cons; [apply uint8_range|]). apply Forall_nil.
  - repeat (apply Forall_cons; [unfold is_uint8; lia|]). apply Forall_nil.
Qed.

Lemma step_responses (e : event) (s s' : state) :
  wf s ->
  bus_step e s = Some s' ->
  responses s' =
    responses s ++
    (if is_read_match e then [spec_build_response (requestedReg s) (fakeVoltage s)] else []).
Proof.
  intros Hwf Hstep.
  destruct e as [d|b| | |].
  - simpl is_read_match. destruct (decide (d = I2C_DIRECTION_RECEIVE)) as [->|Hd].
    + destruct (address_matched_read s Hwf)
        as (s1 & Hstep1 & _ & _ & _ & _ & _ & _ & _ & _ & _ & Hresp).
      rewrite Hstep1 in Hstep. injection Hstep as <-.
      rewrite bool_decide_true by reflexivity. exact Hresp.
    + destruct (address_matched_other d s Hd) as (s1 & Hstep1 & _ & _ & _ & _ & _ & []).
      rewrite Hstep1 in Hstep. injection Hstep as <-.
      rewrite (bool_decide_false _ Hd), app_nil_r. assumption.
  - clear Hwf. unfold responses. destruct s as [m rx n tx tn r v p o c].
    simpl in Hstep. destruct p as [offset|]; [|discriminate Hstep].
    injection Hstep as <-. unfold_stmt. simpl.
    destruct (bool_decide (0 <= offset < BUFFER_SIZE)); simpl;
      destruct (bool_decide (m = MODE_RECEIVING)); simpl;
      rewrite ?responses_snoc; simpl; rewrite ?app_nil_r; reflexivity.
  - destruct (transfer_complete s) as (s1 & Hstep1 & _ & _ & _ & _ & _ & _ & _ & _ & Hc).
    rewrite Hstep1 in Hstep. injection Hstep as <-.
    unfold responses. rewrite Hc. simpl. rewrite app_nil_r. reflexivity.
  - destruct (listen_complete s)
      as (s1 & Hstep1 & _ & _ & _ & _ & _ & _ & _ & _ & _ & Hr & _).
    rewrite Hstep1 in Hstep. injection Hstep as <-.
    simpl. rewrite app_nil_r. exact Hr.
  - destruct (error_step s) as (s1 & Hstep1 & _ & _ & _ & _ & _ & []).
    rewrite Hstep1 in Hstep. injection Hstep as <-.
    simpl. rewrite app_nil_r. assumption.
Qed.

Lemma run_without_stop (evs : list event) (s s' : state) :
  Forall (fun e => e <> ListenComplete) evs ->
  run evs s = Some s' ->
  fakeVoltage s' = fakeVoltage s /\
  (Forall (fun e => is_read_match e = false) evs -> requestedReg s' = requestedReg s).
Proof.
  revert s. induction evs as [|e evs IH]; intros s Hevs Hrun.
  - simpl in Hrun. injection Hrun as <-. auto.
  - apply Forall_cons_1 in Hevs as [He Hevs].
    rewrite run_cons in Hrun.
    destruct (bus_step e s) as [s1|] eqn:Hstep; [|discriminate].
    rewrite Some_bind in Hrun.
    destruct (IH s1 Hevs Hrun) as [Hv Hr].
    split.
    + rewrite Hv. eapply step_keeps_voltage; eassumption.
    + intros Hread. apply Forall_cons_1 in Hread as [Hread1 Hread].
      rewrite (Hr Hread). eapply step_keeps_register; eassumption.
Qed.

(** X4: nothing is applied before the stop condition.  Along any run that
    has no ListenComplete event and stores no byte outside [rxBuff], the
    voltage keeps its value, and if the run has no controller-will-read
    address match either, so does the requested register. *)
Theorem X4_nothing_applied_before_stop (evs : list event) (s s' : state) :
  Forall (fun e => e <> ListenComplete) evs ->
  run evs s = Some s' ->
  overrun s' = overrun s ->
  fakeVoltage s' = fakeVoltage s /\
  (Forall (fun e => is_read_match e = false) evs -> requestedReg s' = requestedReg s).
Proof. intros Hevs Hrun _. exact (run_without_stop evs s s' Hevs Hrun). Qed.

(** X4 after initialisation, for the bytes of a SET that is not yet
    terminated by a stop condition. *)
Lemma X4_witness :
  exists s',
    run (AddressMatched I2C_DIRECTION_TRANSMIT :: (ByteReceived <$> [0x09; 0x03; 0xE8]))
        init_state = Some s' /\
    fakeVoltage s' = 3542 /\ requestedReg s' = 0.
Proof.
  eexists. split; [vm_compute; reflexivity|].
  assert (Hstop : Forall (fun e => e <> ListenComplete)
            (AddressMatched I2C_DIRECTION_TRANSMIT :: (ByteReceived <$> [0x09; 0x03; 0xE8]))).
  { repeat (apply Forall_cons; [discriminate|]). apply Forall_nil. }
  assert (Hread : Forall (fun e => is_read_match e = false)
            (AddressMatched I2C_DIRECTION_TRANSMIT :: (ByteReceived <$> [0x09; 0x03; 0xE8]))).
  { repeat (apply Forall_cons; [reflexivity|]). apply Forall_nil. }
  destruct (X4_nothing_applied_before_stop _ init_state _ Hstop
              ltac:(vm_compute; reflexivity) ltac:(reflexivity)) as [Hv Hr].
  split; [exact Hv | exact (Hr Hread)].
Defined.

(** X5: along any run from a well-formed state, every controller-will-read
    address match adds exactly one response, no other event adds any, and
    every response is two bytes. *)
Theorem X5_one_two_byte_response_per_read_match (evs : list event) (s s' : state) :
  wf s ->
  run evs s = Some s' ->
  exists new,
    responses s' = responses s ++ new /\
    length new = length (List.filter is_read_match evs) /\
    Forall two_bytes new.
Proof.
  revert s. induction evs as [|e evs IH]; intros s Hwf Hrun.
  - simpl in Hrun. injection Hrun as <-. exists [].
    rewrite app_nil_r. repeat split. apply Forall_nil.
  - rewrite run_cons in Hrun.
    destruct (bus_step e s) as [s1|] eqn:Hstep; [|discriminate].
    rewrite Some_bind in Hrun.
    pose proof (step_responses e s s1 Hwf Hstep) as Hresp1.
    destruct (IH s1 (wf_bus_step e s s1 Hwf Hstep) Hrun) as (new & Hresp & Hlen & Htwo).
    simpl List.filter. destruct (is_read_match e).
    + exists (spec_build_response (requestedReg s) (fakeVoltage s) :: new).
      split; [rewrite Hresp, Hresp1, <- app_assoc; reflexivity|].
      split; [simpl; rewrite Hlen; reflexivity|].
      apply Forall_cons; [|exact Htwo].
      apply two_bytes_response. exact (wf_fakeVoltage s Hwf).
    + exists new. rewrite app_nil_r in Hresp1.
      split; [rewrite Hresp, Hresp1; reflexivity|]. auto.
Qed.

(** X5 after initialisation, for two GET transactions. *)
Lemma X5_witness :
  exists s' new,
    run (GET GET_VOLTAGE_REG ++ GET SET_VOLTAGE_REG) init_state = Some s' /\
    responses s' = responses init_state ++ new /\
    length new = length (List.filter is_read_match (GET GET_VOLTAGE_REG ++ GET SET_VOLTAGE_REG)) /\
    Forall two_bytes new.
Proof.
  eexists.
  destruct (X5_one_two_byte_response_per_read_match
              (GET GET_VOLTAGE_REG ++ GET SET_VOLTAGE_REG) init_state _ wf_init
              ltac:(vm_compute; reflexivity)) as (new & H).
  exists new. split; [vm_compute; reflexivity | exact H].
Defined.

(** X6: listening is re-armed exactly once for every stop condition and
    every bus fault, and by no other event. *)
Theorem X6_listen_rearmed_once_per_stop_or_fault (evs : list event) (s s' : state) :
  run evs s = Some s' ->
  length (List.filter is_rearm (hal_calls s'))
  = (length (List.filter is_rearm (hal_calls s)) + length (List.filter ends_transfer evs))%nat.
Proof.
  revert s. induction evs as [|e evs IH]; intros s Hrun.
  - simpl in Hrun. injection Hrun as <-. simpl. lia.
  - rewrite run_cons in Hrun.
    destruct (bus_step e s) as [s1|] eqn:Hstep; [|discriminate].
    rewrite Some_bind in Hrun.
    rewrite (IH s1 Hrun), (step_rearms e s s1 Hstep).
    simpl List.filter. destruct (ends_transfer e); simpl; lia.
Qed.

(** X6 after initialisation, for a write cut short by a bus fault and a
    read. *)
Lemma X6_witness :
  exists s',
    run (aborted_write [0x08] ++ read_transaction) init_state = Some s' /\
    length (List.filter is_rearm (hal_calls s')) = 3%nat.
Proof.
  eexists. split; [vm_compute; reflexivity|].
  exact (X6_listen_rearmed_once_per_stop_or_fault
           (aborted_write [0x08] ++ read_transaction) init_state _
           ltac:(vm_compute; reflexivity)).
Defined.

(** ** How transactions compose *)

Lemma big_endian_bytes (hi lo : Z) :
  is_uint8 hi -> is_uint8 lo ->
  is_uint16 (big_endian hi lo) /\
  big_endian hi lo / 256 = hi /\ big_endian hi lo mod 256 = lo.
Proof.
  unfold is_uint8, is_uint16, big_endian. intros Hhi Hlo.
  split; [lia|]. split.
  - rewrite Z.add_comm, Z.div_add by lia. rewrite Z.div_small by lia. lia.
  - rewrite Z.add_comm, Z.mod_add by lia. apply Z.mod_small. lia.
Qed.

(** X7: a register selection is consumed by one read.  From any state
    between transactions (inbound buffer empty and cleared), after a GET of
    any register, a second read without a new selection answers 0xFF,
    0xFF, and the voltage is unchanged. *)
Theorem X7_selection_is_consumed_by_one_read (reg : Z) (s : state) :
  idle s ->
  is_uint8 reg ->
  exists s',
    run (GET reg ++ read_transaction) s = Some s' /\
    responses s' =
      responses s ++ [spec_build_response reg (fakeVoltage s); [0xFF; 0xFF]] /\
    fakeVoltage s' = fakeVoltage s.
Proof.
  intros Hidle Hreg.
  destruct (write_transaction_idle [reg] s Hidle)
    as (s1 & Hrun1 & Hidle1 & _ & _ & _ & Hresp1 & Hr1 & Hv1).
  { apply Forall_cons; [exact Hreg | apply Forall_nil]. }
  { change (Z.to_nat BUFFER_SIZE) with 5%nat. simpl. lia. }
  destruct (read_transaction_run s1 Hidle1)
    as (s2 & Hrun2 & Hidle2 & _ & _ & Hr2 & Hv2 & _ & Hresp2).
  destruct (read_transaction_run s2 Hidle2)
    as (s3 & Hrun3 & _ & _ & _ & _ & Hv3 & _ & Hresp3).
  exists s3. split.
  { unfold GET. rewrite <- app_assoc, run_app, Hrun1, Some_bind, run_app, Hrun2, Some_bind.
    exact Hrun3. }
  split; [|congruence].
  rewrite Hresp3, Hresp2, Hresp1, Hr1, Hv1, Hr2, <- app_assoc. reflexivity.
Qed.

(** X7 at the initial state, for the GET register. *)
Lemma X7_witness :
  exists s',
    run (GET GET_VOLTAGE_REG ++ read_transaction) init_state = Some s' /\
    responses s' =
      responses init_state ++
      [spec_build_response GET_VOLTAGE_REG (fakeVoltage init_state); [0xFF; 0xFF]] /\
    fakeVoltage s' = fakeVoltage init_state.
Proof.
  apply (X7_selection_is_consumed_by_one_read GET_VOLTAGE_REG init_state).
  - exact idle_init.
  - unfold is_uint8, GET_VOLTAGE_REG. lia.
Defined.

(** X8: a write with payload also selects its first byte for the next
    read.  From any state between transactions (inbound buffer empty and
    cleared), a read that directly follows a write of two to [BUFFER_SIZE]
    bytes answers the two payload bytes just written when the first byte
    is the GET register 0x08, and 0xFF, 0xFF otherwise (so after a SET of
    register 0x09). *)
Theorem X8_payload_write_selects_its_register (reg hi : Z) (rest : list Z) (s : state) :
  idle s ->
  Forall is_uint8 (reg :: hi :: rest) ->
  (length (reg :: hi :: rest) <= Z.to_nat BUFFER_SIZE)%nat ->
  exists s',
    run (write_transaction (reg :: hi :: rest) ++ read_transaction) s = Some s' /\
    last_response s' =
      Some (if decide (reg = GET_VOLTAGE_REG)
            then [hi; default 0 (head rest)]
            else [0xFF; 0xFF]) /\
    fakeVoltage s' = big_endian hi (default 0 (head rest)).
Proof.
  intros Hidle Hbytes Hfit.
  destruct (write_transaction_idle (reg :: hi :: rest) s Hidle Hbytes Hfit)
    as (s1 & Hrun1 & Hidle1 & _ & _ & _ & _ & Hr1 & Hv1).
  destruct (read_transaction_run s1 Hidle1)
    as (s2 & Hrun2 & _ & _ & _ & _ & Hv2 & _ & Hresp2).
  apply Forall_cons_1 in Hbytes as [_ Hbytes].
  apply Forall_cons_1 in Hbytes as [Hhi Hrest].
  assert (Hlo : is_uint8 (default 0 (head rest))).
  { destruct rest as [|lo rest]; simpl.
    - unfold is_uint8; lia.
    - apply Forall_cons_1 in Hrest as [Hlo _]. exact Hlo. }
  destruct (big_endian_bytes hi _ Hhi Hlo) as (_ & Hdiv & Hmod).
  exists s2. rewrite run_app, Hrun1, Some_bind.
  split; [exact Hrun2|]. split; [|congruence].
  unfold last_response. rewrite Hresp2, last_snoc, Hr1, Hv1.
  unfold spec_build_response. rewrite Hdiv, Hmod. reflexivity.
Qed.

(** X8 at the initial state, for a payload written to the GET register. *)
Lemma X8_witness :
  exists s',
    run (write_transaction (0x08 :: 0x12 :: [0x34]) ++ read_transaction) init_state = Some s' /\
    last_response s' =
      Some (if decide (0x08 = GET_VOLTAGE_REG)
            then [0x12; default 0 (head [0x34])]
            else [0xFF; 0xFF]) /\
    fakeVoltage s' = big_endian 0x12 (default 0 (head [0x34])).
Proof.
  apply (X8_payload_write_selects_its_register 0x08 0x12 [0x34] init_state).
  - exact idle_init.
  - repeat (apply Forall_cons; [unfold is_uint8; lia|]). apply Forall_nil.
  - change (Z.to_nat BUFFER_SIZE) with 5%nat. simpl. lia.
Defined.

(** X9: a bus fault does not discard a partial write.  The bytes received
    before the fault stay in the buffer and stay counted, the next write is
    appended behind them, and at its stop condition the two are
    interpreted as the one write of all the bytes. *)
Theorem X9_fault_keeps_partial_write (bs1 bs2 : list Z) (s : state) :
  idle s ->
  (length (bs1 ++ bs2) <= Z.to_nat BUFFER_SIZE)%nat ->
  exists s' s'',
    run (aborted_write bs1 ++ write_transaction bs2) s = Some s' /\
    run (write_transaction (bs1 ++ bs2)) s = Some s'' /\
    requestedReg s' = requestedReg s'' /\
    fakeVoltage s' = fakeVoltage s'' /\
    idle s'.
Proof.
  intros [Hwf Hcount Hbuf] Hfit. rewrite length_app in Hfit.
  pose proof (wf_rxBuff s Hwf) as Hlen.
  assert (Hdir : I2C_DIRECTION_TRANSMIT <> I2C_DIRECTION_RECEIVE)
    by (unfold I2C_DIRECTION_TRANSMIT, I2C_DIRECTION_RECEIVE; lia).
  destruct (address_matched_other _ s Hdir)
    as (s1 & Hstep1 & Hmode1 & Hrx1 & _ & Hcount1 & Hbuf1 & Hframe1).
  rewrite Hcount in Hrx1. rewrite Hcount in Hcount1.
  destruct (run_receive bs1 0 s1 Hmode1 Hrx1 Hcount1)
    as (s2 & Hrun2 & Hmode2 & Hcount2 & Hbuf2 & Hframe2).
  { rewrite Hbuf1. exact Hlen. }
  { simpl. lia. }
  simpl in Hcount2, Hbuf2.
  destruct (error_step s2) as (s3 & Hstep3 & Hmode3 & _ & _ & Hcount3 & Hbuf3 & Hframe3).
  destruct (address_matched_other _ s3 Hdir)
    as (s4 & Hstep4 & Hmode4 & Hrx4 & _ & Hcount4 & Hbuf4 & Hframe4).
  rewrite Hcount3, Hcount2 in Hrx4, Hcount4.
  assert (Hbuf4' : rxBuff s4 = (uint8 <$> bs1) ++ drop (length bs1) (rxBuff s)) by congruence.
  destruct (run_receive bs2 (length bs1) s4 Hmode4 Hrx4 Hcount4)
    as (s5 & Hrun5 & _ & Hcount5 & Hbuf5 & Hframe5).
  { rewrite Hbuf4', length_app, length_fmap, length_drop. lia. }
  { exact Hfit. }
  destruct (listen_complete s5)
    as (s6 & Hstep6 & _ & Hcount6 & Hbuf6 & _ & Hreg6 & Hvolt6 & _).
  destruct (write_transaction_run (bs1 ++ bs2) s Hcount Hlen)
    as (s'' & Hrun'' & _ & _ & _ & Hreg'' & Hvolt'' & _).
  { rewrite length_app. exact Hfit. }
  assert (Hrun : run (aborted_write bs1 ++ write_transaction bs2) s = Some s6).
  { unfold aborted_write, write_transaction.
    rewrite <- app_comm_cons, run_cons, Hstep1, Some_bind.
    rewrite <- app_assoc, run_app, Hrun2, Some_bind.
    rewrite <- app_comm_cons, run_cons. simpl app.
    rewrite Hstep3, Some_bind, run_cons, Hstep4, Some_bind, run_app, Hrun5, Some_bind.
    rewrite run_single. exact Hstep6. }
  assert (Hinbound : rxBuff s5 = inbound (bs1 ++ bs2) (rxBuff s)).
  { rewrite Hbuf5, Hbuf4'. unfold inbound.
    rewrite take_app_length', drop_app_add' by (rewrite length_fmap; reflexivity).
    rewrite drop_drop, fmap_app, length_app, <- app_assoc. reflexivity. }
  exists s6, s''. split; [exact Hrun|]. split; [exact Hrun''|].
  destruct Hframe1, Hframe2, Hframe3, Hframe4, Hframe5.
  rewrite Hreg6, Hvolt6, Hreg'', Hvolt'', Hinbound, Hcount5, length_app.
  split; [f_equal; congruence|]. split; [f_equal; congruence|].
  split; [eapply wf_run; eassumption | exact Hcount6 | exact Hbuf6].
Qed.

(** X9 at the initial state: a SET whose register byte arrives before a
    bus fault and whose value arrives in the next write. *)
Lemma X9_witness :
  exists s' s'',
    run (aborted_write [0x09] ++ write_transaction [0x03; 0xE8]) init_state = Some s' /\
    run (write_transaction ([0x09] ++ [0x03; 0xE8])) init_state = Some s'' /\
    requestedReg s' = requestedReg s'' /\
    fakeVoltage s' = fakeVoltage s'' /\
    idle s'.
Proof.
  apply (X9_fault_keeps_partial_write [0x09] [0x03; 0xE8] init_state).
  - exact idle_init.
  - change (Z.to_nat BUFFER_SIZE) with 5%nat. simpl. lia.
Defined.

Example fault_then_value_sets_voltage :
  (s ← run (aborted_write [0x09] ++ write_transaction [0x03; 0xE8]) init_state;
   Some (fakeVoltage s, requestedReg s))
  = Some (1000, 0x09).
Proof. reflexivity. Qed.

(** X10: a register byte is not applied before the stop condition.  From
    any state between transactions (inbound buffer empty and cleared),
    when the controller writes the register byte and then addresses the
    device for reading without a stop in between, the read answers for the
    register that was requested before, and the byte written becomes the
    requested register only at the stop condition that ends the read. *)
Theorem X10_read_without_stop_answers_old_selection (reg : Z) (s : state) :
  idle s ->
  is_uint8 reg ->
  exists s',
    run ([AddressMatched I2C_DIRECTION_TRANSMIT; ByteReceived reg] ++ read_transaction) s
      = Some s' /\
    last_response s' = Some (spec_build_response (requestedReg s) (fakeVoltage s)) /\
    requestedReg s' = reg /\
    fakeVoltage s' = fakeVoltage s /\
    idle s'.
Proof.
  intros [Hwf Hcount Hbuf] Hreg.
  destruct (address_matched_write s)
    as (s1 & Hstep1 & Hmode1 & Hrx1 & Hcount1 & Hbuf1 & Hframe1).
  rewrite Hcount in Hrx1. rewrite Hcount in Hcount1.
  destruct (byte_received_in_bounds reg 0 s1 Hmode1 Hrx1 Hcount1)
    as (s2 & Hstep2 & _ & _ & Hcount2 & Hbuf2 & Hframe2).
  { change (Z.to_nat BUFFER_SIZE) with 5%nat. lia. }
  assert (Hwf2 : wf s2).
  { eapply wf_bus_step; [|exact Hstep2]. eapply wf_bus_step; eassumption. }
  destruct (address_matched_read s2 Hwf2)
    as (s3 & Hstep3 & _ & _ & _ & _ & _ & Hv3 & Hbuf3 & Hcount3 & _ & Hresp3).
  destruct (transfer_complete s3)
    as (s4 & Hstep4 & _ & _ & Hbuf4 & Hcount4 & _ & _ & Hv4 & _ & Hcalls4).
  destruct (listen_complete s4)
    as (s5 & Hstep5 & _ & Hcount5 & Hbuf5 & _ & Hreg5 & Hvolt5 & _ & _ & _ & Hresp5 & _).
  assert (Hrun : run ([AddressMatched I2C_DIRECTION_TRANSMIT; ByteReceived reg]
                        ++ read_transaction) s = Some s5).
  { unfold read_transaction. simpl app.
    rewrite run_cons, Hstep1, Some_bind, run_cons, Hstep2, Some_bind.
    rewrite run_cons, Hstep3, Some_bind, run_cons, Hstep4, Some_bind, run_single.
    exact Hstep5. }
  exists s5. split; [exact Hrun|].
  destruct Hframe1, Hframe2.
  change (Z.of_nat 1) with 1 in Hcount2.
  assert (Hone : rxBuffDataSize s4 = 1) by congruence.
  assert (Hfirst : rd (rxBuff s4) 0 = reg).
  { rewrite Hbuf4, Hbuf3, Hbuf2, Hbuf1, Hbuf. simpl. apply uint8_id. exact Hreg. }
  rewrite Hone in Hreg5, Hvolt5. unfold selected, written in Hreg5, Hvolt5.
  simpl in Hreg5, Hvolt5.
  split.
  { unfold last_response. rewrite Hresp5. unfold responses. rewrite Hcalls4.
    fold (responses s3). rewrite Hresp3, last_snoc.
    replace (requestedReg s2) with (requestedReg s) by congruence.
    replace (fakeVoltage s2) with (fakeVoltage s) by congruence.
    reflexivity. }
  split; [congruence|]. split; [congruence|].
  split; [eapply wf_run; [exact Hwf | exact Hrun] | exact Hcount5 | exact Hbuf5].
Qed.

(** X10 at the initial state: the GET register written and read without a
    stop in between. *)
Lemma X10_witness :
  exists s',
    run ([AddressMatched I2C_DIRECTION_TRANSMIT; ByteReceived GET_VOLTAGE_REG]
           ++ read_transaction) init_state = Some s' /\
    last_response s' =
      Some (spec_build_response (requestedReg init_state) (fakeVoltage init_state)) /\
    requestedReg s' = GET_VOLTAGE_REG /\
    fakeVoltage s' = fakeVoltage init_state /\
    idle s'.
Proof.
  apply (X10_read_without_stop_answers_old_selection GET_VOLTAGE_REG init_state).
  - exact idle_init.
  - unfold is_uint8, GET_VOLTAGE_REG. lia.
Defined.

Example read_without_stop_from_init :
  (s ← run ([AddressMatched I2C_DIRECTION_TRANSMIT; ByteReceived GET_VOLTAGE_REG]
              ++ read_transaction) init_state;
   Some (last_response s, requestedReg s))
  = Some (Some [0xFF; 0xFF], 0x08).
Proof. reflexivity. Qed.

(** ** Sessions *)

Lemma idle_after_init (s : state) :
  idle s -> idle (I2C_SLAVE_Init s) /\ fakeVoltage (I2C_SLAVE_Init s) = 3542.
Proof.
  intros [[Hrx Hrxb Hn Htx Htxb Htn Hr Hv] Hcount Hbuf].
  destruct s as [m rx n tx tn r v p o c]. simpl in *.
  split; [|reflexivity].
  split; [split|..]; simpl; auto; unfold is_uint8, is_uint16; lia.
Qed.

(** X11: [I2C_SLAVE_Init] run again between transactions restores the
    default voltage: the next GET of register 0x08 answers 0x0D, 0xD6
    whatever was written before. *)
Theorem X11_init_restores_default_voltage (s : state) :
  idle s ->
  exists s',
    run (GET GET_VOLTAGE_REG) (I2C_SLAVE_Init s) = Some s' /\
    last_response s' = Some [0x0D; 0xD6].
Proof.
  intros Hidle. destruct (idle_after_init s Hidle) as [Hidle0 Hv0].
  destruct (GET_run GET_VOLTAGE_REG _ Hidle0) as (s' & Hrun & _ & _ & Hresp).
  { unfold is_uint8, GET_VOLTAGE_REG. lia. }
  exists s'. split; [exact Hrun|]. rewrite Hresp, Hv0. reflexivity.
Qed.

(** X11 for the initial state itself. *)
Lemma X11_witness :
  exists s',
    run (GET GET_VOLTAGE_REG) (I2C_SLAVE_Init init_state) = Some s' /\
    last_response s' = Some [0x0D; 0xD6].
Proof. exact (X11_init_restores_default_voltage init_state idle_init). Defined.

Lemma transaction_keeps_bounds (t : transaction) (s : state) :
  idle s -> fits t ->
  exists s', run (events t) s = Some s' /\ idle s' /\ overrun s' = overrun s.
Proof.
  intros Hidle Ht. destruct t as [|bytes]; simpl in *.
  - destruct (read_transaction_run s Hidle) as (s' & Hrun & Hidle' & _ & _ & _ & _ & Ho & _).
    exists s'. auto.
  - destruct Ht as [Hbytes Hlen].
    destruct (write_transaction_idle bytes s Hidle Hbytes Hlen)
      as (s' & Hrun & Hidle' & _ & _ & Ho & _).
    exists s'. auto.
Qed.

(** X12: from any state between transactions (inbound buffer empty and
    cleared), a session of complete transactions that fit the buffer never
    stores a byte outside the inbound buffer, and ends between
    transactions. *)
Theorem X12_fitting_sessions_stay_in_bounds (ts : list transaction) (s : state) :
  idle s ->
  Forall fits ts ->
  exists s',
    run (session ts) s = Some s' /\
    overrun s' = overrun s /\
    idle s'.
Proof.
  revert s. induction ts as [|t ts IH]; intros s Hidle Hts.
  - exists s. auto.
  - apply Forall_cons_1 in Hts as [Ht Hts].
    destruct (transaction_keeps_bounds t s Hidle Ht) as (s1 & Hrun1 & Hidle1 & Ho1).
    destruct (IH s1 Hidle1 Hts) as (s' & Hrun & Ho & Hidle').
    exists s'. unfold session. simpl. rewrite run_app, Hrun1, Some_bind.
    split; [exact Hrun|]. split; [congruence | exact Hidle'].
Qed.

(** X12 after initialisation, for a full five-byte write and a read. *)
Lemma X12_witness :
  exists s',
    run (session [Write [0x09; 0x03; 0xE8; 0x00; 0x00]; Read]) init_state = Some s' /\
    overrun s' = overrun init_state /\
    idle s'.
Proof.
  apply (X12_fitting_sessions_stay_in_bounds
           [Write [0x09; 0x03; 0xE8; 0x00; 0x00]; Read] init_state).
  - exact idle_init.
  - apply Forall_cons; [|apply Forall_cons; [exact I | apply Forall_nil]].
    split; [|change (Z.to_nat BUFFER_SIZE) with 5%nat; simpl; lia].
    repeat (apply Forall_cons; [unfold is_uint8; lia|]). apply Forall_nil.
Defined.

(** X13: reads and register-only writes never change the voltage.  From
    any state between transactions, after any number of them, a GET of
    register 0x08 answers the voltage of that state, most significant byte
    first, and leaves it unchanged. *)
Theorem X13_get_reports_current_voltage (ts : list transaction) (s : state) :
  idle s ->
  Forall register_only ts ->
  exists s',
    run (session ts ++ GET GET_VOLTAGE_REG) s = Some s' /\
    last_response s' = Some [fakeVoltage s / 256; fakeVoltage s mod 256] /\
    fakeVoltage s' = fakeVoltage s.
Proof.
  intros Hidle Hts.
  destruct (session_keeps_voltage ts s Hidle Hts) as (s1 & Hrun1 & Hidle1 & Hv1).
  destruct (GET_run GET_VOLTAGE_REG s1 Hidle1) as (s' & Hrun & _ & Hv & Hresp).
  { unfold is_uint8, GET_VOLTAGE_REG. lia. }
  exists s'. rewrite run_app, Hrun1, Some_bind. split; [exact Hrun|].
  split; [|congruence]. rewrite Hresp, Hv1. reflexivity.
Qed.

(** X13 after initialisation, for two GETs in a row. *)
Lemma X13_witness :
  exists s',
    run (session [Write [GET_VOLTAGE_REG]; Read] ++ GET GET_VOLTAGE_REG) init_state = Some s' /\
    last_response s' = Some [fakeVoltage init_state / 256; fakeVoltage init_state mod 256] /\
    fakeVoltage s' = fakeVoltage init_state.
Proof.
  apply (X13_get_reports_current_voltage [Write [GET_VOLTAGE_REG]; Read] init_state).
  - exact idle_init.
  - apply Forall_cons; [|apply Forall_cons; [exact I | apply Forall_nil]].
    split; [|simpl; lia].
    apply Forall_cons; [unfold is_uint8, GET_VOLTAGE_REG; lia | apply Forall_nil].
Defined.
